(** * postgrest: a shallow embedding of the dual-role request builder

    The development follows [postgrest.go] function by function.  Go values
    are modelled as the code has them: [int] and [time.Duration] as [Z]
    (with the 64-bit wrap-around of the one multiplication the code
    performs written out), strings as [string], [(T, error)] results as a
    sum or as a pair where the code really returns both components, nil-able
    pointers and interfaces as [option].  The calls that leave the package
    ([time.Now], the injected signer, the injected transport) are steps of a
    small state monad over a [World] that records them. *)

From Stdlib Require Import ZArith String Ascii List Bool Lia.
Import ListNotations.

Open Scope list_scope.
Open Scope string_scope.
Open Scope Z_scope.

(** ** Errors *)

(** A Go [error] is observed through its [Error()] text; [errors.New] and
    [fmt.Errorf] both build one from a message. *)
Record error : Type := errors_New { Error : string }.

Definition fmt_Errorf (msg : string) : error := errors_New msg.

Definition errMissingConfigParams : error :=
  errors_New "postgrest error: missing config parameter".
Definition errMissingHTTPClient : error :=
  errors_New "postgrest error: missing httpClient parameter".
Definition errMissingJWTGenerator : error :=
  errors_New "postgrest error: missing jwtGenerator parameter".
Definition errMissingRequestMethod : error :=
  errors_New "postgrest error: missing request method".
Definition errMissingRequestURL : error :=
  errors_New "postgrest error: missing request url".
Definition errMissingURLPath : error :=
  errors_New "postgrest error: table name not specified in request".
Definition errMissingRoleClaim : error :=
  errors_New "postgrest error: missing 'role' in postgrest claims".
Definition errInvalidExpiryClaim : error :=
  errors_New "postgrest error: invalid 'exp' in postgrest claims".

(** [(T, error)] where the code returns either a value or an error. *)
Inductive Result (A : Type) : Type :=
| Ok (x : A)
| Err (e : error).
Arguments Ok {A} x.
Arguments Err {A} e.

(** ** Configuration and claims *)

Record Config : Type := mkConfig {
  Issuer : string;
  MasterBaseURL : string;
  MasterRole : string;
  MasterSecret : string;
  SlaveBaseURL : string;
  SlaveRole : string;
  SlaveSecret : string;
  Timeout : Z  (* time.Duration, an int64 *)
}.

Record Claims : Type := mkClaims {
  Role : string;
  ClaimsIssuer : string;  (* field Issuer of Claims *)
  ExpiresAt : Z
}.

Definition isSuccess (httpStatusCode : Z) : bool :=
  (200 <=? httpStatusCode) && (httpStatusCode <? 300).

(** ** Time

    An instant is its number of nanoseconds since the Unix epoch;
    [Time.Add] shifts it by a [Duration] and [Time.Unix] is the number of
    whole seconds.  A [Duration] is an int64 count of nanoseconds, and the
    product of two of them wraps. *)

Definition Time : Type := Z.
Definition time_Second : Z := 1000000000.

Definition wrap64 (z : Z) : Z := (z + 2 ^ 63) mod 2 ^ 64 - 2 ^ 63.
Definition Duration_mul (a b : Z) : Z := wrap64 (a * b).
Definition Time_Add (t : Time) (d : Z) : Time := t + d.
Definition Time_Unix (t : Time) : Z := t / time_Second.

(** generateClaims, with the reading of [time.Now()] passed in. *)
Definition generateClaims (role : string) (config : Config) (now : Time) : Claims :=
  {| Role := role;
     ClaimsIssuer := Issuer config;
     ExpiresAt := Time_Unix (Time_Add now (Duration_mul (Timeout config) time_Second)) |}.

(** Claims.Valid, with the reading of [time.Now()] passed in. *)
Definition Valid (c : Claims) (now : Time) : option error :=
  if String.eqb (Role c) "" then Some errMissingRoleClaim
  else if ExpiresAt c <=? Time_Unix now then Some errInvalidExpiryClaim
  else None.

(** ** Configuration validation

    [validateConfig] walks the fields of [Config] by reflection.  The view
    reflection gives of a [Config] is the list of its fields in declaration
    order, each with its name, its struct tag and its value. *)

Inductive FieldValue : Type :=
| VString (s : string)
| VDuration (d : Z).

Record StructField : Type := mkField {
  Name : string;
  Tag : list (string * string);
  FValue : FieldValue
}.

Definition TypeString (v : FieldValue) : string :=
  match v with
  | VString _ => "string"
  | VDuration _ => "time.Duration"
  end.

Fixpoint Tag_Lookup (tag : list (string * string)) (key : string) : option string :=
  match tag with
  | [] => None
  | (k, v) :: rest => if String.eqb k key then Some v else Tag_Lookup rest key
  end.

Definition Config_fields (c : Config) : list StructField :=
  [ mkField "Issuer" [("yaml", "issuer,omitempty")] (VString (Issuer c));
    mkField "MasterBaseURL" [("yaml", "master_base_url"); ("required", "true")]
            (VString (MasterBaseURL c));
    mkField "MasterRole" [("yaml", "master_role"); ("required", "true")]
            (VString (MasterRole c));
    mkField "MasterSecret" [("yaml", "master_secret"); ("required", "true")]
            (VString (MasterSecret c));
    mkField "SlaveBaseURL" [("yaml", "slave_base_url"); ("required", "true")]
            (VString (SlaveBaseURL c));
    mkField "SlaveRole" [("yaml", "slave_role"); ("required", "true")]
            (VString (SlaveRole c));
    mkField "SlaveSecret" [("yaml", "slave_secret"); ("required", "true")]
            (VString (SlaveSecret c));
    mkField "Timeout" [("yaml", "timeout"); ("required", "true")]
            (VDuration (Timeout c)) ].

(** [fieldValue.String() == ""] on a string field, [fieldValue.Int() <= 0]
    on a duration field; each test is guarded by the field's type. *)
Definition emptyString (v : FieldValue) : bool :=
  String.eqb (TypeString v) "string" &&
  match v with VString s => String.eqb s "" | VDuration _ => false end.

Definition nonPositiveDuration (v : FieldValue) : bool :=
  String.eqb (TypeString v) "time.Duration" &&
  match v with VDuration d => d <=? 0 | VString _ => false end.

Definition isRequired (f : StructField) : bool :=
  match Tag_Lookup (Tag f) "required" with
  | Some required => String.eqb required "true"
  | None => false
  end.

(** One iteration of the loop body: [continue] on a field that is not
    required, otherwise the two independent [if]s, each appending. *)
Definition checkField (invalidFields : list string) (f : StructField) : list string :=
  if negb (isRequired f) then invalidFields
  else
    let invalidFields1 :=
      if emptyString (FValue f) then (invalidFields ++ [Name f])%list else invalidFields in
    if nonPositiveDuration (FValue f) then (invalidFields1 ++ [Name f])%list
    else invalidFields1.

Definition collectInvalid (fields : list StructField) : list string :=
  fold_left checkField fields [].

Fixpoint strings_Join (elems : list string) (sep : string) : string :=
  match elems with
  | [] => ""
  | [x] => x
  | x :: rest => x ++ sep ++ strings_Join rest sep
  end.

Definition newline : string := String (ascii_of_nat 10) "".

Definition invalidConfigMessage (invalidFields : list string) : string :=
  "postgrest error: invalid config parameters: " ++ newline ++ "- " ++
  strings_Join invalidFields (newline ++ "- ").

(** The slice [invalidFields] starts nil and is non-nil exactly when
    something was appended to it. *)
Definition validateConfig (config : Config) : option error :=
  match collectInvalid (Config_fields config) with
  | [] => None
  | invalidFields => Some (fmt_Errorf (invalidConfigMessage invalidFields))
  end.

(** ** URLs, requests and responses *)

(** The fields of [url.URL] that [url.Parse] fills and [String] prints. *)
Record URL : Type := mkURL {
  Scheme : string;
  Opaque : string;
  User : string;
  Host : string;
  Path : string;
  RawPath : string;
  ForceQuery : bool;
  RawQuery : string;
  Fragment : string
}.

(** [url.Values]: keys with their lists of values. *)
Definition Values : Type := list (string * list string).

(** An [io.Reader] handed in as a request body: the bytes it will yield. *)
Definition Reader : Type := string.

(** [http.Header], as the list of additions made to it, oldest first. *)
Definition Header : Type := list (string * string).

Definition Header_Add (h : Header) (key value : string) : Header :=
  (h ++ [(key, value)])%list.

Record Request : Type := mkRequest {
  Method : string;
  ReqURL : URL;
  ReqHeader : Header;
  ReqBody : option Reader
}.

(** A response body stream: its bytes, how many of them have been read and
    how many times [Close] was called on it. *)
Record Body : Type := mkBody {
  data : string;
  offset : nat;
  closes : nat
}.

Definition Body_Close (b : Body) : Body :=
  {| data := data b; offset := offset b; closes := S (closes b) |}.

Definition Body_unread (b : Body) : string :=
  substring (offset b) (String.length (data b) - offset b) (data b).

Definition Body_advance (b : Body) (n : nat) : Body :=
  {| data := data b; offset := (offset b + n)%nat; closes := closes b |}.

Record Response : Type := mkResponse {
  Status : string;
  StatusCode : Z;
  RespRequest : Request;
  RespBody : Body
}.

(** ** The libraries behind the package

    [net/url], [encoding/json] and [net/http] are not part of the
    repository; the package is verified against any behaviour of theirs. *)
Class Runtime : Type := {
  (** values passed as [interface{}] payloads and decode targets *)
  Value : Type;
  (** [url.Parse] *)
  url_Parse : string -> Result URL;
  (** the [String] method of a URL *)
  URL_String : URL -> string;
  (** [url.Values.Encode] *)
  Values_Encode : Values -> string;
  (** [json.NewEncoder(b).Encode(payload)]: the bytes written and the error *)
  json_Encode : Value -> string * option error;
  (** [json.NewDecoder(r).Decode(target)] on the unread bytes of [r]: the
      number of bytes it read, the target afterwards and the error *)
  json_Decode : string -> Value -> nat * Value * option error;
  (** the checks of [http.NewRequest] on its method and URL string, giving
      the parsed URL of the request *)
  http_NewRequest_URL : string -> string -> Result URL
}.

(** ** The world outside the package

    [clock] gives the successive readings of [time.Now()], [ticks] counts
    the readings made so far; [signed] and [sent] record, oldest first, the
    calls made to the signing capability and to the transport. *)
Record World : Type := mkWorld {
  clock : nat -> Time;
  ticks : nat;
  signed : list (Claims * string);
  sent : list Request
}.

(** The injected capabilities may answer differently as the world evolves. *)
Definition JWTGenerator : Type := World -> Claims -> string -> string * option error.

Record HTTPClientAdapter : Type := mkHTTPClient {
  Do : World -> Request -> Result Response
}.

Record Agent : Type := mkAgent {
  config : Config;
  httpClient : HTTPClientAdapter;
  generateJWT : JWTGenerator
}.

(** *** A state monad over the world *)

Definition M (A : Type) : Type := World -> A * World.

Definition ret {A : Type} (x : A) : M A := fun w => (x, w).

Definition bind {A B : Type} (c : M A) (k : A -> M B) : M B :=
  fun w => let (x, w') := c w in k x w'.

Notation "x <- c ;; k" := (bind c (fun x => k))
  (at level 200, c at level 100, k at level 200, right associativity).

Definition time_Now : M Time :=
  fun w => (clock w (ticks w),
            {| clock := clock w; ticks := S (ticks w);
               signed := signed w; sent := sent w |}).

Definition call_generateJWT (agent : Agent) (claims : Claims) (secret : string)
  : M (string * option error) :=
  fun w => (generateJWT agent w claims secret,
            {| clock := clock w; ticks := ticks w;
               signed := (signed w ++ [(claims, secret)])%list; sent := sent w |}).

Definition call_Do (agent : Agent) (request : Request) : M (Result Response) :=
  fun w => (Do (httpClient agent) w request,
            {| clock := clock w; ticks := ticks w;
               signed := signed w; sent := (sent w ++ [request])%list |}).

(** ** The package's functions *)

Section Package.

Context {RT : Runtime}.

(** jsonEncode returns the buffer and the encoder's error, both. *)
Definition jsonEncode (payload : Value) : Reader * option error :=
  json_Encode payload.

(** What a call of unmarshalResponse returns and what it leaves behind: the
    body stream and the decode target after the call. *)
Record Outcome : Type := mkOutcome {
  status : Z;
  err : option error;
  body_after : option Body;
  target_after : option Value
}.

Definition http_StatusInternalServerError : Z := 500.

(** unmarshalResponse.  The deferred [response.Body.Close()] runs once on
    each return. *)
Definition unmarshalResponse (response : Response) (target : option Value) : Outcome :=
  if negb (isSuccess (StatusCode response)) then
    {| status := StatusCode response;
       err := Some (fmt_Errorf ("postgrest error (" ++ Method (RespRequest response)
                                ++ " " ++ URL_String (ReqURL (RespRequest response))
                                ++ "): " ++ Status response));
       body_after := Some (Body_Close (RespBody response));
       target_after := target |}
  else
    match target with
    | None =>
        {| status := StatusCode response; err := None;
           body_after := Some (Body_Close (RespBody response));
           target_after := None |}
    | Some t =>
        let '(n, t', derr) := json_Decode (Body_unread (RespBody response)) t in
        let body := Body_advance (RespBody response) n in
        match derr with
        | Some e =>
            {| status := http_StatusInternalServerError; err := Some e;
               body_after := Some (Body_Close body); target_after := Some t' |}
        | None =>
            {| status := StatusCode response; err := None;
               body_after := Some (Body_Close body); target_after := Some t' |}
        end
    end.

(** [http.NewRequest]: an empty method means GET; the request carries the
    method, the parsed URL, a fresh header and the body it was given. *)
Definition http_NewRequest (method urlStr : string) (body : option Reader)
  : Result Request :=
  match http_NewRequest_URL method urlStr with
  | Err e => Err e
  | Ok u =>
      Ok {| Method := if String.eqb method "" then "GET" else method;
            ReqURL := u; ReqHeader := []; ReqBody := body |}
  end.

Definition Request_addHeader (r : Request) (key value : string) : Request :=
  {| Method := Method r; ReqURL := ReqURL r;
     ReqHeader := Header_Add (ReqHeader r) key value; ReqBody := ReqBody r |}.

Definition newRequest (method urlStr tokenStr : string) (body : option Reader)
  : Result Request :=
  match http_NewRequest method urlStr body with
  | Err e => Err e
  | Ok request => Ok (Request_addHeader request "Authorization" tokenStr)
  end.

Definition URL_setPathQuery (u : URL) (path rawQuery : string) : URL :=
  {| Scheme := Scheme u; Opaque := Opaque u; User := User u; Host := Host u;
     Path := path; RawPath := RawPath u; ForceQuery := ForceQuery u;
     RawQuery := rawQuery; Fragment := Fragment u |}.

Definition buildURLStr (baseURL path : string) (queryParams : option Values)
  : Result string :=
  if String.eqb path "" then Err errMissingURLPath
  else
    match url_Parse baseURL with
    | Err e => Err e
    | Ok url =>
        let encodedQuery :=
          match queryParams with
          | Some q => Values_Encode q
          | None => ""
          end in
        Ok (URL_String (URL_setPathQuery url path encodedQuery))
    end.

Definition http_MethodGet : string := "GET".
Definition http_MethodPost : string := "POST".
Definition http_MethodPatch : string := "PATCH".
Definition http_MethodDelete : string := "DELETE".

(** generateReadTokenStr and generateWriteTokenStr return the formatted
    string and the signer's error, both. *)
Definition generateReadTokenStr (agent : Agent) : M (string * option error) :=
  now <- time_Now ;;
  let claims := generateClaims (SlaveRole (config agent)) (config agent) now in
  r <- call_generateJWT agent claims (SlaveSecret (config agent)) ;;
  ret ("Bearer " ++ fst r, snd r).

Definition generateWriteTokenStr (agent : Agent) : M (string * option error) :=
  now <- time_Now ;;
  let claims := generateClaims (MasterRole (config agent)) (config agent) now in
  r <- call_generateJWT agent claims (MasterSecret (config agent)) ;;
  ret ("Bearer " ++ fst r, snd r).

Definition newReadRequest (agent : Agent) (method urlStr : string) : M (Result Request) :=
  r <- generateReadTokenStr agent ;;
  match snd r with
  | Some e => ret (Err e)
  | None => ret (newRequest method urlStr (fst r) None)
  end.

Definition newWriteRequest (agent : Agent) (method urlStr : string)
  (body : option Reader) : M (Result Request) :=
  r <- generateWriteTokenStr agent ;;
  match snd r with
  | Some e => ret (Err e)
  | None => ret (newRequest method urlStr (fst r) body)
  end.

Definition NewRequest (agent : Agent) (method urlStr : string)
  (body : option Reader) : M (Result Request) :=
  if String.eqb urlStr "" then ret (Err errMissingRequestURL)
  else if String.eqb method "" then ret (Err errMissingRequestMethod)
  else if String.eqb method http_MethodGet then newReadRequest agent method urlStr
  else newWriteRequest agent method urlStr body.

Definition sendRequest (agent : Agent) (method urlStr : string)
  (body : option Reader) : M (Result Response) :=
  r <- NewRequest agent method urlStr body ;;
  match r with
  | Err e => ret (Err e)
  | Ok request => call_Do agent request
  end.

(** The loop of Ping over its table of named addresses. *)
Fixpoint pingAll (agent : Agent) (urls : list (string * string)) : M (option error) :=
  match urls with
  | [] => ret None
  | (name, url) :: rest =>
      r <- sendRequest agent http_MethodGet url None ;;
      match r with
      | Err e => ret (Some (fmt_Errorf (name ++ " service error: " ++ Error e)))
      | Ok response =>
          if negb (isSuccess (StatusCode response)) then
            ret (Some (fmt_Errorf (name ++ " service error: "
                                   ++ Error (errors_New (Status response)))))
          else pingAll agent rest
      end
  end.

Definition Ping (agent : Agent) : M (option error) :=
  pingAll agent [ ("master", MasterBaseURL (config agent));
                  ("slave", SlaveBaseURL (config agent)) ].

Definition failed (e : error) : Outcome :=
  {| status := 0; err := Some e; body_after := None; target_after := None |}.

Definition Get (agent : Agent) (table : string) (query : option Values)
  : M (Result Response) :=
  match buildURLStr (SlaveBaseURL (config agent)) table query with
  | Err e => ret (Err e)
  | Ok urlStr => sendRequest agent http_MethodGet urlStr None
  end.

Definition GetJSON (agent : Agent) (table : string) (query : option Values)
  (target : option Value) : M Outcome :=
  r <- Get agent table query ;;
  match r with
  | Err e => ret (failed e)
  | Ok response => ret (unmarshalResponse response target)
  end.

Definition Post (agent : Agent) (table : string) (body : option Reader)
  : M (Result Response) :=
  match buildURLStr (MasterBaseURL (config agent)) table None with
  | Err e => ret (Err e)
  | Ok urlStr => sendRequest agent http_MethodPost urlStr body
  end.

Definition PostAndReturn (agent : Agent) (table : string) (body : option Reader)
  : M (Result Response) :=
  match buildURLStr (MasterBaseURL (config agent)) table None with
  | Err e => ret (Err e)
  | Ok urlStr =>
      r <- NewRequest agent http_MethodPost urlStr body ;;
      match r with
      | Err e => ret (Err e)
      | Ok request =>
          call_Do agent (Request_addHeader request "Prefer" "return=representation")
      end
  end.

Definition PostJSON (agent : Agent) (table : string) (payload : Value)
  (target : option Value) : M Outcome :=
  let (body, eerr) := jsonEncode payload in
  match eerr with
  | Some e => ret (failed e)
  | None =>
      match target with
      | None =>
          r <- Post agent table (Some body) ;;
          match r with
          | Err e => ret (failed e)
          | Ok response => ret (unmarshalResponse response None)
          end
      | Some _ =>
          r <- PostAndReturn agent table (Some body) ;;
          match r with
          | Err e => ret (failed e)
          | Ok response => ret (unmarshalResponse response target)
          end
      end
  end.

Definition Patch (agent : Agent) (table : string) (query : option Values)
  (body : option Reader) : M (Result Response) :=
  match buildURLStr (MasterBaseURL (config agent)) table query with
  | Err e => ret (Err e)
  | Ok urlStr => sendRequest agent http_MethodPatch urlStr body
  end.

Definition PatchJSON (agent : Agent) (table : string) (query : option Values)
  (payload : Value) : M Outcome :=
  let (body, eerr) := jsonEncode payload in
  match eerr with
  | Some e => ret (failed e)
  | None =>
      r <- Patch agent table query (Some body) ;;
      match r with
      | Err e => ret (failed e)
      | Ok response => ret (unmarshalResponse response None)
      end
  end.

Definition Delete (agent : Agent) (table : string) (query : option Values)
  : M (Result Response) :=
  match buildURLStr (MasterBaseURL (config agent)) table query with
  | Err e => ret (Err e)
  | Ok urlStr => sendRequest agent http_MethodDelete urlStr None
  end.

Definition DeleteJSON (agent : Agent) (table : string) (query : option Values)
  : M Outcome :=
  r <- Delete agent table query ;;
  match r with
  | Err e => ret (failed e)
  | Ok response => ret (unmarshalResponse response None)
  end.

(** NewAgent; a nil argument is [None]. *)
Definition NewAgent (config : option Config) (httpClient : option HTTPClientAdapter)
  (jwtGenerator : option JWTGenerator) : Result Agent :=
  match config with
  | None => Err errMissingConfigParams
  | Some config =>
      match httpClient with
      | None => Err errMissingHTTPClient
      | Some httpClient =>
          match jwtGenerator with
          | None => Err errMissingJWTGenerator
          | Some jwtGenerator =>
              match validateConfig config with
              | Some e => Err e
              | None => Ok (mkAgent config httpClient jwtGenerator)
              end
          end
      end
  end.

End Package.

(** ** Test doubles

    Stand-ins for the libraries, the server and the signer, in the manner of
    the package's test file: enough of [net/url] for addresses of the shape
    [scheme://host/path?query], a JSON codec over texts, a server that
    answers like the handler of [TestMain], and the two signers the tests
    use.  They serve to run the package on concrete inputs. *)
Module TestDoubles.

Fixpoint cut (c : ascii) (s : string) : string * option string :=
  match s with
  | EmptyString => (EmptyString, None)
  | String a rest =>
      if Ascii.eqb a c then (EmptyString, Some rest)
      else let (before, after) := cut c rest in (String a before, after)
  end.

Definition orEmpty (o : option string) : string :=
  match o with Some s => s | None => "" end.

Definition startsWith (p s : string) : bool := String.prefix p s.

Definition parse (s : string) : Result URL :=
  let (s1, frag) := cut "#"%char s in
  let (s2, query) := cut "?"%char s1 in
  if startsWith ":" s2 then
    Err (errors_New ("parse " ++ s ++ ": missing protocol scheme"))
  else
    match index 0 "://" s2 with
    | Some n =>
        let rest := substring (n + 3) (String.length s2 - (n + 3)) s2 in
        let (host, p) := cut "/"%char rest in
        Ok {| Scheme := substring 0 n s2; Opaque := ""; User := ""; Host := host;
              Path := match p with Some x => "/" ++ x | None => "" end;
              RawPath := "";
              ForceQuery := match query with Some "" => true | _ => false end;
              RawQuery := orEmpty query; Fragment := orEmpty frag |}
    | None =>
        Ok {| Scheme := ""; Opaque := ""; User := ""; Host := ""; Path := s2;
              RawPath := "";
              ForceQuery := match query with Some "" => true | _ => false end;
              RawQuery := orEmpty query; Fragment := orEmpty frag |}
    end.

Definition nonEmpty (s : string) : bool := negb (String.eqb s "").

Definition render (u : URL) : string :=
  (if nonEmpty (Scheme u) then Scheme u ++ ":" else "") ++
  (if nonEmpty (Opaque u) then Opaque u
   else
     (if nonEmpty (Scheme u) || nonEmpty (Host u) then
        (if nonEmpty (Host u) || nonEmpty (Path u) then "//" else "") ++ Host u
      else "") ++
     (if nonEmpty (Path u) && negb (startsWith "/" (Path u)) && nonEmpty (Host u)
      then "/" else "") ++
     Path u) ++
  (if ForceQuery u || nonEmpty (RawQuery u) then "?" ++ RawQuery u else "") ++
  (if nonEmpty (Fragment u) then "#" ++ Fragment u else "").

Fixpoint encodeValues (v : Values) : string :=
  match v with
  | [] => ""
  | (k, vs) :: rest =>
      let here := strings_Join (map (fun x => k ++ "=" ++ x) vs) "&" in
      match rest with
      | [] => here
      | _ => here ++ "&" ++ encodeValues rest
      end
  end.

(** Go values are stood for by their JSON text; decoding accepts a text
    that opens an object and reads all of it. *)
Definition encodeJSON (v : string) : string * option error :=
  (v ++ newline, None).

Definition decodeJSON (unread : string) (target : string)
  : nat * string * option error :=
  if startsWith "{" unread then (String.length unread, unread, None)
  else (1%nat, target, Some (errors_New "invalid character looking for beginning of value")).

#[global] Instance runtime : Runtime := {|
  Value := string;
  url_Parse := parse;
  URL_String := render;
  Values_Encode := encodeValues;
  json_Encode := encodeJSON;
  json_Decode := decodeJSON;
  http_NewRequest_URL := fun _ urlStr => parse urlStr
|}.

(** The server of the tests: an [error=404] query is answered with that
    status, a GET with an object, a POST with 201, a PATCH with 204. *)
Definition server : HTTPClientAdapter :=
  {| Do := fun _ request =>
       if String.eqb (Host (ReqURL request)) "" then
         Err (errors_New "unsupported protocol scheme")
       else if String.eqb (RawQuery (ReqURL request)) "error=404" then
         Ok (mkResponse "404 Not Found" 404 request (mkBody "Not Found" 0 0))
       else if String.eqb (Method request) "POST" then
         Ok (mkResponse "201 Created" 201 request (mkBody "{}" 0 0))
       else if String.eqb (Method request) "PATCH" then
         Ok (mkResponse "204 No Content" 204 request (mkBody "No Content" 0 0))
       else
         Ok (mkResponse "200 OK" 200 request (mkBody "{}" 0 0)) |}.

Definition okSigner : JWTGenerator := fun _ _ _ => ("secret", None).

Definition mockError : error := errors_New "mock error".
Definition failingSigner : JWTGenerator := fun _ _ _ => ("", Some mockError).

Definition testConfig : Config :=
  {| Issuer := "test";
     MasterBaseURL := "http://master"; MasterRole := "masterRole";
     MasterSecret := "masterSecret";
     SlaveBaseURL := "http://slave"; SlaveRole := "slaveRole";
     SlaveSecret := "slaveSecret";
     Timeout := 5 |}.

Definition testAgent : Agent := mkAgent testConfig server okSigner.
Definition failingAgent : Agent := mkAgent testConfig server failingSigner.

(** A world whose clock starts at 1.8e18 ns and advances by a millisecond
    per reading. *)
Definition world0 : World :=
  {| clock := fun n => 1800000000000000000 + Z.of_nat n * 1000000;
     ticks := 0; signed := []; sent := [] |}.

End TestDoubles.

(** ** Vocabulary of the properties *)

(** [sub] occurs in [s]. *)
Definition contains (s sub : string) : Prop :=
  exists before after : string, s = before ++ sub ++ after.

(** The required fields a configuration leaves missing or invalid, as the
    interface description lists them: the six strings when empty, the
    lifetime when not positive. *)
Definition missingFields (c : Config) : list string :=
  ((if String.eqb (MasterBaseURL c) "" then ["MasterBaseURL"] else []) ++
   (if String.eqb (MasterRole c) "" then ["MasterRole"] else []) ++
   (if String.eqb (MasterSecret c) "" then ["MasterSecret"] else []) ++
   (if String.eqb (SlaveBaseURL c) "" then ["SlaveBaseURL"] else []) ++
   (if String.eqb (SlaveRole c) "" then ["SlaveRole"] else []) ++
   (if String.eqb (SlaveSecret c) "" then ["SlaveSecret"] else []) ++
   (if Timeout c <=? 0 then ["Timeout"] else []))%list.

Definition withIssuer (c : Config) (issuer : string) : Config :=
  {| Issuer := issuer;
     MasterBaseURL := MasterBaseURL c; MasterRole := MasterRole c;
     MasterSecret := MasterSecret c;
     SlaveBaseURL := SlaveBaseURL c; SlaveRole := SlaveRole c;
     SlaveSecret := SlaveSecret c;
     Timeout := Timeout c |}.

(** The world in which the signer is called: the clock has been read once. *)
Definition afterClock (w : World) : World :=
  {| clock := clock w; ticks := S (ticks w); signed := signed w; sent := sent w |}.

(** The world once the signer has answered. *)
Definition afterSigning (w : World) (claims : Claims) (secret : string) : World :=
  {| clock := clock w; ticks := S (ticks w);
     signed := (signed w ++ [(claims, secret)])%list; sent := sent w |}.

(** The world once a request has been handed to the transport. *)
Definition afterSending (w : World) (request : Request) : World :=
  {| clock := clock w; ticks := ticks w;
     signed := signed w; sent := (sent w ++ [request])%list |}.

(** The identity NewRequest picks for a method. *)
Definition roleFor (cfg : Config) (method : string) : string :=
  if String.eqb method http_MethodGet then SlaveRole cfg else MasterRole cfg.

Definition secretFor (cfg : Config) (method : string) : string :=
  if String.eqb method http_MethodGet then SlaveSecret cfg else MasterSecret cfg.

(** What a run of [c] from [w] adds to the two records of the world: every
    request handed to the transport satisfies [P], every call made to the
    signer satisfies [Q]. *)
Definition traceOf {A : Type} (c : M A) (w : World)
  (P : Request -> Prop) (Q : Claims * string -> Prop) : Prop :=
  exists (rs : list Request) (cs : list (Claims * string)),
    sent (snd (c w)) = (sent w ++ rs)%list /\
    signed (snd (c w)) = (signed w ++ cs)%list /\
    Forall P rs /\ Forall Q cs.

(** The signer was called for this role and with this secret. *)
Definition signedAs (cfg : Config) (role secret : string) (c : Claims * string) : Prop :=
  Role (fst c) = role /\ ClaimsIssuer (fst c) = Issuer cfg /\ snd c = secret.

(** The request carries a token the signer gave for this role and secret. *)
Definition bearerOf (agent : Agent) (role secret : string) (r : Request) : Prop :=
  exists (w1 : World) (claims : Claims),
    Role claims = role /\
    In ("Authorization", "Bearer " ++ fst (generateJWT agent w1 claims secret))
       (ReqHeader r).

Section Vocabulary.

Context {RT : Runtime}.

Definition encodedQueryOf (queryParams : option Values) : string :=
  match queryParams with
  | Some q => Values_Encode q
  | None => ""
  end.

(** The request is the one [http.NewRequest] makes of this method and URL
    string. *)
Definition requestFor (method urlStr : string) (r : Request) : Prop :=
  Method r = method /\ http_NewRequest_URL method urlStr = Ok (ReqURL r).

(** The request is made of this method and of the URL string buildURLStr
    gives for this base, table and query. *)
Definition builtFrom (method baseURL table : string) (query : option Values)
  (r : Request) : Prop :=
  exists urlStr : string,
    buildURLStr baseURL table query = Ok urlStr /\ requestFor method urlStr r.

(** What sendRequest hands to the transport for a method, a URL string and
    a body: the request made of them, without body on a GET, carrying a
    token signed for the identity of the method. *)
Definition dispatched (agent : Agent) (method urlStr : string)
  (body : option Reader) (r : Request) : Prop :=
  requestFor method urlStr r /\
  ReqBody r = (if String.eqb method http_MethodGet then None else body) /\
  bearerOf agent (roleFor (config agent) method) (secretFor (config agent) method) r.

(** The same for an operation on a table: the URL string is the one
    buildURLStr gives for the base address of the operation. *)
Definition issuedFor (agent : Agent) (method baseURL table : string)
  (query : option Values) (body : option Reader) (r : Request) : Prop :=
  builtFrom method baseURL table query r /\
  ReqBody r = (if String.eqb method http_MethodGet then None else body) /\
  bearerOf agent (roleFor (config agent) method) (secretFor (config agent) method) r.

(** The request goes to the scheme and host of this base address. *)
Definition targetsBase (baseURL : string) (r : Request) : Prop :=
  exists u : URL,
    url_Parse baseURL = Ok u /\
    Scheme (ReqURL r) = Scheme u /\ Host (ReqURL r) = Host u.

(** The routing rule read over every request the agent hands to the
    transport: a GET goes to the replica base address, anything else to the
    primary one. *)
Definition routedByMethod (cfg : Config) (rs : list Request) : Prop :=
  forall r, In r rs ->
    if String.eqb (Method r) http_MethodGet
    then targetsBase (SlaveBaseURL cfg) r
    else targetsBase (MasterBaseURL cfg) r.

(** buildURLStr gives a non-empty URL string for these inputs. *)
Definition buildsURL (baseURL table : string) (query : option Values) : Prop :=
  exists urlStr : string,
    buildURLStr baseURL table query = Ok urlStr /\ urlStr <> "".

(** One probe of Ping: whether it came back with a success status, the
    world it leaves, and the text Ping reports when it did not succeed. *)
Definition probeSucceeds (agent : Agent) (url : string) (w : World) : bool :=
  match fst (sendRequest agent http_MethodGet url None w) with
  | Ok response => isSuccess (StatusCode response)
  | Err _ => false
  end.

Definition afterProbe (agent : Agent) (url : string) (w : World) : World :=
  snd (sendRequest agent http_MethodGet url None w).

Definition probeFailure (agent : Agent) (url : string) (w : World) : string :=
  match fst (sendRequest agent http_MethodGet url None w) with
  | Ok response => Status response
  | Err e => Error e
  end.

End Vocabulary.

(** The signer of the agent fails with [e] whatever it is asked. *)
Definition signerFailsWith (agent : Agent) (e : error) : Prop :=
  forall w claims secret, snd (generateJWT agent w claims secret) = Some e.

(** A raw operation fails with [e] and hands nothing to the transport. *)
Definition failsUnsent {A : Type} (c : M (Result A)) (w : World) (e : error) : Prop :=
  fst (c w) = Err e /\ sent (snd (c w)) = sent w.

(** The same for a JSON variant, which reports status 0 with the error. *)
Definition failsUnsentJSON {RT : Runtime} (c : M Outcome) (w : World) (e : error)
  : Prop :=
  err (fst (c w)) = Some e /\ status (fst (c w)) = 0 /\
  sent (snd (c w)) = sent w.

Definition fullyConsumed (b : Body) : Prop := offset b = String.length (data b).

(** ** Test data *)

Definition emptyURL : URL := mkURL "" "" "" "" "" "" false "" "".

(** The response of the package's own test of unmarshalResponse: a 404 with
    the body "test", on a request with an empty URL. *)
Definition notFoundResponse : Response :=
  mkResponse "" 404 (mkRequest "" emptyURL [] None) (mkBody "test" 0 0).

Definition okResponse (body : string) : Response :=
  mkResponse "200 OK" 200 (mkRequest "GET" emptyURL [] None) (mkBody body 0 0).

(** A JSON text as a value of the test runtime. *)
Definition jsonText (s : string) : @Value TestDoubles.runtime := s.


(** ** Further vocabulary *)

(** Claims.Valid as a step of the world: the clock is read only once the
    role has been found present. *)
Definition Claims_Valid (c : Claims) : M (option error) :=
  if String.eqb (Role c) "" then ret (Some errMissingRoleClaim)
  else
    now <- time_Now ;;
    if ExpiresAt c <=? Time_Unix now then ret (Some errInvalidExpiryClaim)
    else ret None.

(** A run of [c] from [w] makes at most [n] calls to the signer, reads the
    clock once for each, and hands the transport no more requests than it
    had tokens signed. *)
Definition callsOut {A : Type} (c : M A) (w : World) (n : nat) : Prop :=
  exists (rs : list Request) (cs : list (Claims * string)),
    sent (snd (c w)) = (sent w ++ rs)%list /\
    signed (snd (c w)) = (signed w ++ cs)%list /\
    ticks (snd (c w)) = (ticks w + List.length cs)%nat /\
    (List.length rs <= List.length cs)%nat /\
    (List.length cs <= n)%nat.

(** The headers of a request: the bearer token alone, or the bearer token
    followed by the preference for a representation. *)
Definition plainHeader (r : Request) : Prop :=
  exists tok : string, ReqHeader r = [("Authorization", "Bearer " ++ tok)].

Definition preferHeader (r : Request) : Prop :=
  exists tok : string,
    ReqHeader r = [("Authorization", "Bearer " ++ tok);
                   ("Prefer", "return=representation")].

(** The transport of the agent fails with [e] whatever it is sent. *)
Definition transportFailsWith (agent : Agent) (e : error) : Prop :=
  forall w request, Do (httpClient agent) w request = Err e.

(** A raw operation failed, either before the transport was reached or with
    the error [e] of the transport after exactly one request. *)
Definition failsAtTransport {A : Type} (c : M (Result A)) (w : World) (e : error)
  : Prop :=
  (exists e', fst (c w) = Err e' /\ sent (snd (c w)) = sent w) \/
  (fst (c w) = Err e /\ exists r, sent (snd (c w)) = (sent w ++ [r])%list).

(** The same for a JSON variant, which reports status 0 with the error. *)
Definition failsAtTransportJSON {RT : Runtime} (c : M Outcome) (w : World)
  (e : error) : Prop :=
  status (fst (c w)) = 0 /\
  ((exists e', err (fst (c w)) = Some e' /\ sent (snd (c w)) = sent w) \/
   (err (fst (c w)) = Some e /\
    exists r, sent (snd (c w)) = (sent w ++ [r])%list)).

(** Every required field of the configuration is in order. *)
Definition configured (c : Config) : Prop :=
  MasterBaseURL c <> "" /\ MasterRole c <> "" /\ MasterSecret c <> "" /\
  SlaveBaseURL c <> "" /\ SlaveRole c <> "" /\ SlaveSecret c <> "" /\
  0 < Timeout c.

(** *** Further test doubles *)

(** A transport whose every call fails. *)
Definition downServer : HTTPClientAdapter :=
  {| Do := fun _ _ => Err (errors_New "connection refused") |}.

Definition downAgent : Agent :=
  mkAgent TestDoubles.testConfig downServer TestDoubles.okSigner.

(** An agent whose two base addresses do not parse, as in the tests. *)
Definition malformedAgent : Agent :=
  mkAgent (mkConfig "test" "://xy/" "masterRole" "masterSecret"
                    "://xy/" "slaveRole" "slaveSecret" 5)
          TestDoubles.server TestDoubles.okSigner.

(** The test runtime with an encoder that refuses the empty text, as the
    JSON encoder refuses a value it has no encoding for. *)
Definition pickyRuntime : Runtime :=
  {| Value := string;
     url_Parse := TestDoubles.parse;
     URL_String := TestDoubles.render;
     Values_Encode := TestDoubles.encodeValues;
     json_Encode := fun v =>
       if String.eqb v "" then ("", Some (errors_New "json: unsupported type"))
       else TestDoubles.encodeJSON v;
     json_Decode := TestDoubles.decodeJSON;
     http_NewRequest_URL := fun _ urlStr => TestDoubles.parse urlStr |}.

(** The outcome a JSON variant without target gives for a response: the
    status of the response, an error exactly when that status is no
    success, the body closed once and unread, no target. *)
Definition reportsStatus {RT : Runtime} (o : Outcome) (response : Response) : Prop :=
  status o = StatusCode response /\
  (err o = None <-> isSuccess (StatusCode response) = true) /\
  body_after o = Some (Body_Close (RespBody response)) /\
  target_after o = None.

(** The outcome of a successful decode of [n] bytes into [t']. *)
Definition decoded {RT : Runtime} (response : Response) (n : nat) (t' : Value)
  : Outcome :=
  {| status := StatusCode response; err := None;
     body_after := Some (Body_Close (Body_advance (RespBody response) n));
     target_after := Some t' |}.

(** The response a raw operation returned is the answer of the transport to
    the one request the operation sent. *)
Definition answeredBy (agent : Agent) (c : M (Result Response)) (w : World)
  (response : Response) : Prop :=
  exists (r : Request) (w1 : World),
    sent (snd (c w)) = (sent w ++ [r])%list /\
    sent w1 = sent w /\
    Do (httpClient agent) w1 r = Ok response.

(** * Properties *)

(** ** Strings and traces *)

Lemma append_assoc (a b c : string) : (a ++ b) ++ c = a ++ (b ++ c).
Proof.
  induction a as [|ch a IH]; simpl.
  - reflexivity.
  - now rewrite IH.
Qed.

Lemma append_empty_r (a : string) : a ++ "" = a.
Proof.
  induction a as [|ch a IH]; simpl; [reflexivity | now rewrite IH].
Qed.


Lemma contains_self (s : string) : contains s s.
Proof.
  exists "", "". simpl. now rewrite append_empty_r.
Qed.

Lemma contains_prepend (p s sub : string) : contains s sub -> contains (p ++ s) sub.
Proof.
  intros (b & a & ->). exists (p ++ b), a. now rewrite append_assoc.
Qed.

Lemma contains_extend (s t sub : string) : contains s sub -> contains (s ++ t) sub.
Proof.
  intros (b & a & ->). exists b, (a ++ t). now rewrite !append_assoc.
Qed.

Lemma strings_Join_cons (x : string) (rest : list string) (sep : string) :
  rest <> [] -> strings_Join (x :: rest) sep = x ++ sep ++ strings_Join rest sep.
Proof.
  destruct rest; [congruence | reflexivity].
Qed.

Lemma strings_Join_contains (sep : string) (elems : list string) (x : string) :
  In x elems -> contains (strings_Join elems sep) x.
Proof.
  induction elems as [|y rest IH]; intros Hin; [destruct Hin|].
  destruct rest as [|z rest'].
  - destruct Hin as [->|[]]. apply contains_self.
  - rewrite strings_Join_cons by discriminate.
    destruct Hin as [->|Hin].
    + apply contains_extend, contains_self.
    + apply contains_prepend, contains_prepend, IH, Hin.
Qed.

(** ** Configuration validation *)



Lemma collectInvalid_fields (c : Config) :
  collectInvalid (Config_fields c) = missingFields c.
Proof.
  unfold collectInvalid, Config_fields, missingFields, checkField, isRequired,
    emptyString, nonPositiveDuration; cbn.
  destruct (String.eqb (MasterBaseURL c) ""), (String.eqb (MasterRole c) ""),
    (String.eqb (MasterSecret c) ""), (String.eqb (SlaveBaseURL c) ""),
    (String.eqb (SlaveRole c) ""), (String.eqb (SlaveSecret c) ""),
    (Timeout c <=? 0); reflexivity.
Qed.

Lemma validateConfig_missing (c : Config) :
  validateConfig c =
  match missingFields c with
  | [] => None
  | fields => Some (fmt_Errorf (invalidConfigMessage fields))
  end.
Proof.
  unfold validateConfig. now rewrite collectInvalid_fields.
Qed.

(** C6.  A configuration that leaves required fields missing or invalid is
    refused, by validateConfig and so by NewAgent when the transport and the
    signer are given, with an error whose text names every such field.  The
    issuer plays no part: it changes nothing to a refusal, and a
    configuration with every required field in order is accepted with any
    issuer, the empty one included. *)
Theorem construction_names_every_missing_field :
  forall (c : Config) (client : HTTPClientAdapter) (gen : JWTGenerator),
    (missingFields c <> [] ->
     exists e : error,
       validateConfig c = Some e /\
       NewAgent (Some c) (Some client) (Some gen) = Err e /\
       Error e = invalidConfigMessage (missingFields c) /\
       (forall name, In name (missingFields c) -> contains (Error e) name) /\
       (forall issuer, validateConfig (withIssuer c issuer) = Some e)) /\
    (missingFields c = [] ->
     forall issuer,
       validateConfig (withIssuer c issuer) = None /\
       NewAgent (Some (withIssuer c issuer)) (Some client) (Some gen)
       = Ok (mkAgent (withIssuer c issuer) client gen)).
Proof.
  intros c client gen. split.
  - intros Hmiss.
    exists (fmt_Errorf (invalidConfigMessage (missingFields c))).
    assert (Hv : validateConfig c
                 = Some (fmt_Errorf (invalidConfigMessage (missingFields c)))).
    { rewrite validateConfig_missing. destruct (missingFields c); congruence. }
    repeat split.
    + exact Hv.
    + unfold NewAgent. now rewrite Hv.
    + intros name Hin. simpl. unfold invalidConfigMessage.
      do 3 apply contains_prepend. now apply strings_Join_contains.
    + intros issuer. rewrite validateConfig_missing.
      change (missingFields (withIssuer c issuer)) with (missingFields c).
      destruct (missingFields c); congruence.
  - intros Hnone issuer.
    assert (Hv : validateConfig (withIssuer c issuer) = None).
    { rewrite validateConfig_missing.
      change (missingFields (withIssuer c issuer)) with (missingFields c).
      now rewrite Hnone. }
    split; [exact Hv|]. unfold NewAgent. now rewrite Hv.
Qed.

Lemma construction_names_every_missing_field_witness :
  let c := mkConfig "" "" "masterRole" "" "http://slave" "slaveRole"
                    "slaveSecret" 0 in
  missingFields c <> [] /\
  (exists e : error,
      NewAgent (Some c) (Some TestDoubles.server) (Some TestDoubles.okSigner)
      = Err e /\
      contains (Error e) "MasterBaseURL" /\
      contains (Error e) "MasterSecret" /\
      contains (Error e) "Timeout") /\
  validateConfig (withIssuer TestDoubles.testConfig "") = None.
Proof.
  intros c.
  assert (Hmiss : missingFields c <> []) by (vm_compute; discriminate).
  split; [exact Hmiss|]. split.
  - destruct (construction_names_every_missing_field
                c TestDoubles.server TestDoubles.okSigner) as (H & _).
    destruct (H Hmiss) as (e & _ & Hn & _ & Hnames & _).
    exists e. split; [exact Hn|].
    repeat split; apply Hnames; vm_compute; tauto.
  - destruct (construction_names_every_missing_field
                TestDoubles.testConfig TestDoubles.server TestDoubles.okSigner)
      as (_ & H).
    apply (H eq_refl "").
Defined.

(** ** Token issuer *)

Lemma Duration_mul_seconds (t : Z) :
  -9223372036 <= t <= 9223372036 ->
  Duration_mul t time_Second = t * 1000000000.
Proof.
  intros Ht. unfold Duration_mul, wrap64, time_Second.
  change (2 ^ 63) with 9223372036854775808.
  change (2 ^ 64) with 18446744073709551616.
  rewrite Z.mod_small; lia.
Qed.

Lemma expiry_in_seconds (role : string) (cfg : Config) (now : Time) :
  -9223372036 <= Timeout cfg <= 9223372036 ->
  ExpiresAt (generateClaims role cfg now) = Time_Unix now + Timeout cfg.
Proof.
  intros Ht. unfold generateClaims; simpl.
  rewrite Duration_mul_seconds by exact Ht.
  unfold Time_Unix, Time_Add, time_Second.
  now rewrite Z.div_add by lia.
Qed.



Lemma generateReadTokenStr_run (agent : Agent) (w : World) :
  let claims := generateClaims (SlaveRole (config agent)) (config agent)
                               (clock w (ticks w)) in
  let secret := SlaveSecret (config agent) in
  generateReadTokenStr agent w =
  (("Bearer " ++ fst (generateJWT agent (afterClock w) claims secret),
    snd (generateJWT agent (afterClock w) claims secret)),
   afterSigning w claims secret).
Proof. reflexivity. Qed.

Lemma generateWriteTokenStr_run (agent : Agent) (w : World) :
  let claims := generateClaims (MasterRole (config agent)) (config agent)
                               (clock w (ticks w)) in
  let secret := MasterSecret (config agent) in
  generateWriteTokenStr agent w =
  (("Bearer " ++ fst (generateJWT agent (afterClock w) claims secret),
    snd (generateJWT agent (afterClock w) claims secret)),
   afterSigning w claims secret).
Proof. reflexivity. Qed.

(** C2, as the code has it.  For a lifetime of up to 9223372036 (taken as a
    number of seconds, which is how the code reads the Timeout field), both
    token issuers build claims with the given role, the configured issuer
    and an expiry of the current Unix second plus the lifetime, and make one
    call to the signer, with exactly these claims and the role's secret;
    they return the signer's token behind "Bearer " and the signer's error. *)
Theorem token_issuer_claims :
  forall (agent : Agent) (w : World) (read : bool),
    0 < Timeout (config agent) <= 9223372036 ->
    let cfg := config agent in
    let role := if read then SlaveRole cfg else MasterRole cfg in
    let secret := if read then SlaveSecret cfg else MasterSecret cfg in
    let issue := if read then generateReadTokenStr agent
                 else generateWriteTokenStr agent in
    exists claims : Claims,
      Role claims = role /\
      ClaimsIssuer claims = Issuer cfg /\
      ExpiresAt claims = Time_Unix (clock w (ticks w)) + Timeout cfg /\
      signed (snd (issue w)) = (signed w ++ [(claims, secret)])%list /\
      sent (snd (issue w)) = sent w /\
      fst (issue w) =
        ("Bearer " ++ fst (generateJWT agent (afterClock w) claims secret),
         snd (generateJWT agent (afterClock w) claims secret)).
Proof.
  intros agent w read Ht cfg role secret issue.
  exists (generateClaims role cfg (clock w (ticks w))).
  split; [reflexivity|]. split; [reflexivity|].
  split; [apply expiry_in_seconds; subst cfg; lia|].
  subst issue role secret cfg. destruct read.
  - rewrite generateReadTokenStr_run. simpl. auto.
  - rewrite generateWriteTokenStr_run. simpl. auto.
Qed.

Lemma token_issuer_claims_witness :
  0 < Timeout TestDoubles.testConfig <= 9223372036 /\
  exists claims : Claims,
    Role claims = "slaveRole" /\
    ClaimsIssuer claims = "test" /\
    ExpiresAt claims = 1800000005 /\
    signed (snd (generateReadTokenStr TestDoubles.testAgent TestDoubles.world0))
    = [(claims, "slaveSecret")].
Proof.
  split; [vm_compute; split; [reflexivity | discriminate]|].
  destruct (token_issuer_claims TestDoubles.testAgent TestDoubles.world0 true)
    as (claims & Hr & Hi & He & Hs & _).
  - vm_compute; split; [reflexivity | discriminate].
  - exists claims. repeat split; assumption.
Defined.

(** C2 read literally fails for long lifetimes: with Timeout set to
    ten seconds written as a Duration (10^10), the product with time.Second
    wraps, and the expiry handed to the signer is neither the current time
    plus the lifetime read as seconds nor read as a Duration: it lies in
    the past. *)
Lemma expiry_wraps_for_long_timeout :
  let cfg := mkConfig "test" "http://master" "masterRole" "masterSecret"
                      "http://slave" "slaveRole" "slaveSecret" 10000000000 in
  let agent := mkAgent cfg TestDoubles.server TestDoubles.okSigner in
  let now := clock TestDoubles.world0 (ticks TestDoubles.world0) in
  validateConfig cfg = None /\
  ~ (forall claims secret,
        In (claims, secret)
           (signed (snd (generateReadTokenStr agent TestDoubles.world0))) ->
        ExpiresAt claims = Time_Unix now + Timeout cfg \/
        ExpiresAt claims = Time_Unix (Time_Add now (Timeout cfg))).
Proof.
  intros cfg agent now. split; [reflexivity|].
  intros H.
  specialize (H (generateClaims "slaveRole" cfg now) "slaveSecret").
  destruct H as [H|H]; [left; reflexivity | |]; vm_compute in H; discriminate.
Qed.

(** ** URL builder *)

Section Builder.

Context {RT : Runtime}.


(** C3.  An empty path fails with the missing-path error whatever the base
    and the parameters; otherwise a base that does not parse fails with the
    parser's error; otherwise the result is the text of the parsed base
    with its path set to the given path and its query set to the encoding of
    the parameters (the empty string when they are absent), every other
    part of the base kept and its former path and query gone.  Equal inputs
    give equal results. *)
Theorem buildURLStr_contract :
  forall (baseURL path : string) (queryParams : option Values),
    (path = "" -> buildURLStr baseURL path queryParams = Err errMissingURLPath) /\
    (path <> "" ->
     forall e, url_Parse baseURL = Err e ->
               buildURLStr baseURL path queryParams = Err e) /\
    (path <> "" ->
     forall u, url_Parse baseURL = Ok u ->
       exists u' : URL,
         buildURLStr baseURL path queryParams = Ok (URL_String u') /\
         Path u' = path /\
         RawQuery u' = encodedQueryOf queryParams /\
         (queryParams = None -> RawQuery u' = "") /\
         Scheme u' = Scheme u /\ Opaque u' = Opaque u /\ User u' = User u /\
         Host u' = Host u /\ RawPath u' = RawPath u /\
         ForceQuery u' = ForceQuery u /\ Fragment u' = Fragment u) /\
    (forall baseURL' path' queryParams',
        baseURL' = baseURL -> path' = path -> queryParams' = queryParams ->
        buildURLStr baseURL' path' queryParams'
        = buildURLStr baseURL path queryParams).
Proof.
  intros baseURL path queryParams. unfold buildURLStr.
  split; [intros ->; reflexivity|].
  split.
  { intros Hp e He. apply String.eqb_neq in Hp. now rewrite Hp, He. }
  split.
  { intros Hp u Hu. apply String.eqb_neq in Hp. rewrite Hp, Hu.
    exists (URL_setPathQuery u path (encodedQueryOf queryParams)).
    split; [reflexivity|]. simpl.
    repeat split; try reflexivity. now intros ->. }
  intros ? ? ? -> -> ->. reflexivity.
Qed.

End Builder.

Lemma buildURLStr_contract_witness :
  buildURLStr "://xy/" "" (Some [("id", ["1"])]) = Err errMissingURLPath /\
  buildURLStr "://xy/" "test_table" None
  = Err (errors_New "parse ://xy/: missing protocol scheme") /\
  exists u' : URL,
    buildURLStr "http://slave?old=1" "test_table" (Some [("id", ["1"])])
    = Ok (URL_String u') /\
    Path u' = "test_table" /\ RawQuery u' = "id=1" /\ Host u' = "slave".
Proof.
  pose proof (buildURLStr_contract "://xy/" "" (Some [("id", ["1"])])) as (H1 & _).
  pose proof (buildURLStr_contract "://xy/" "test_table" None) as (_ & H2 & _).
  pose proof (buildURLStr_contract "http://slave?old=1" "test_table"
                (Some [("id", ["1"])])) as (_ & _ & H3 & _).
  split; [apply H1; reflexivity|].
  split; [apply H2; [discriminate | reflexivity]|].
  destruct (H3 ltac:(discriminate) _ eq_refl)
    as (u' & Hb & Hpath & Hquery & _ & _ & _ & _ & Hhost & _).
  exists u'. repeat split; assumption.
Defined.

(** ** Response normalizer *)




Section Normalizer.

Context {RT : Runtime}.

Lemma isSuccess_not_500 (code : Z) :
  isSuccess code = true -> http_StatusInternalServerError <> code.
Proof.
  unfold isSuccess, http_StatusInternalServerError. intros H.
  apply andb_true_iff in H. destruct H as [_ H]. apply Z.ltb_lt in H. lia.
Qed.

(** C5, as the code has it.  On every return of unmarshalResponse the body
    has been closed exactly once more than before and holds the same bytes.
    Nothing is read from it when the status is not a success or when there
    is no target; with a target, what is read is what the JSON decoder
    read. *)
Theorem unmarshalResponse_closes_once :
  forall (response : Response) (target : option Value),
    exists b : Body,
      body_after (unmarshalResponse response target) = Some b /\
      closes b = S (closes (RespBody response)) /\
      data b = data (RespBody response) /\
      (isSuccess (StatusCode response) = false \/ target = None ->
       offset b = offset (RespBody response)) /\
      (forall t, isSuccess (StatusCode response) = true -> target = Some t ->
         offset b =
         (offset (RespBody response)
          + fst (fst (json_Decode (Body_unread (RespBody response)) t)))%nat).
Proof.
  intros response target. unfold unmarshalResponse.
  destruct (isSuccess (StatusCode response)) eqn:Hs; simpl.
  - destruct target as [t|].
    + destruct (json_Decode (Body_unread (RespBody response)) t)
        as [[n t'] derr] eqn:Hd.
      destruct derr as [e|]; simpl;
        (eexists; split; [reflexivity|]; simpl;
         repeat split; try reflexivity;
         [ intros [H|H]; discriminate
         | intros t0 _ Ht; injection Ht as <-; now rewrite Hd ]).
    + eexists; split; [reflexivity|]; simpl.
      repeat split; try reflexivity. intros t _ Ht; discriminate.
  - eexists; split; [reflexivity|]; simpl.
    repeat split; try reflexivity. intros t Ht; discriminate.
Qed.

(** C7.  A response outside [200,300) gives back its own status code and an
    error made of the request's method and URL and of the status text.  A
    success response with a target whose decoding fails gives back the
    decoder's error as it is, with 500 in place of the response's status
    code. *)
Theorem unmarshalResponse_failures :
  forall (response : Response) (target : option Value),
    (isSuccess (StatusCode response) = false ->
     status (unmarshalResponse response target) = StatusCode response /\
     err (unmarshalResponse response target)
     = Some (fmt_Errorf ("postgrest error (" ++ Method (RespRequest response)
                         ++ " " ++ URL_String (ReqURL (RespRequest response))
                         ++ "): " ++ Status response))) /\
    (isSuccess (StatusCode response) = true ->
     forall t n t' e,
       target = Some t ->
       json_Decode (Body_unread (RespBody response)) t = (n, t', Some e) ->
       status (unmarshalResponse response target) = 500 /\
       status (unmarshalResponse response target) <> StatusCode response /\
       err (unmarshalResponse response target) = Some e).
Proof.
  intros response target. unfold unmarshalResponse. split.
  - intros Hs. rewrite Hs. simpl. split; reflexivity.
  - intros Hs t n t' e -> Hd. rewrite Hs, Hd. simpl.
    repeat split. now apply isSuccess_not_500.
Qed.

End Normalizer.

Lemma unmarshalResponse_closes_once_witness :
  exists b : Body,
    body_after (unmarshalResponse
                  (okResponse "{}") (Some (jsonText ""))) = Some b /\
    closes b = 1%nat /\ offset b = 2%nat.
Proof.
  destruct (unmarshalResponse_closes_once
              (okResponse "{}") (Some (jsonText "")))
    as (b & Hb & Hc & _ & _ & Ho).
  exists b. split; [exact Hb|]. split; [exact Hc|].
  exact (Ho (jsonText "") eq_refl eq_refl).
Defined.

(** C5 read literally fails on the remote-error path: the body of a
    404 answer is closed once but none of its four bytes has been read. *)
Lemma remote_error_leaves_body_unread :
  body_after (unmarshalResponse notFoundResponse None)
  = Some (mkBody "test" 0 1) /\
  ~ (exists b : Body,
        body_after (unmarshalResponse notFoundResponse None) = Some b /\
        fullyConsumed b /\ closes b = 1%nat).
Proof.
  split; [reflexivity|].
  intros (b & Hb & Hfull & _).
  vm_compute in Hb. injection Hb as <-. vm_compute in Hfull. discriminate.
Qed.

Lemma unmarshalResponse_failures_witness :
  (status (unmarshalResponse notFoundResponse None) = 404 /\
   err (unmarshalResponse notFoundResponse None)
   = Some (errors_New "postgrest error ( ): ")) /\
  (let response := okResponse "test" in
   status (unmarshalResponse response (Some (jsonText ""))) = 500 /\
   err (unmarshalResponse response (Some (jsonText "")))
   = Some (errors_New "invalid character looking for beginning of value")).
Proof.
  split.
  - destruct (unmarshalResponse_failures notFoundResponse None) as (H & _).
    apply H. reflexivity.
  - intros response.
    destruct (unmarshalResponse_failures response (Some (jsonText "")))
      as (_ & H).
    destruct (H eq_refl (jsonText "") 1%nat (jsonText "")
                (errors_New "invalid character looking for beginning of value")
                eq_refl eq_refl) as (H1 & _ & H2).
    split; assumption.
Defined.

(** ** Request construction and dispatch *)

Section Dispatch.

Context {RT : Runtime}.

Lemma NewRequest_run (agent : Agent) (method urlStr : string)
  (body : option Reader) (w : World) :
  urlStr <> "" -> method <> "" ->
  let cfg := config agent in
  let claims := generateClaims (roleFor cfg method) cfg (clock w (ticks w)) in
  let secret := secretFor cfg method in
  let answer := generateJWT agent (afterClock w) claims secret in
  NewRequest agent method urlStr body w =
  (match snd answer with
   | Some e => Err e
   | None => newRequest method urlStr ("Bearer " ++ fst answer)
               (if String.eqb method http_MethodGet then None else body)
   end,
   afterSigning w claims secret).
Proof.
  intros Hu Hm. apply String.eqb_neq in Hu, Hm.
  unfold NewRequest, roleFor, secretFor. rewrite Hu, Hm.
  destruct (String.eqb method http_MethodGet).
  - unfold newReadRequest, bind. rewrite generateReadTokenStr_run. simpl.
    now destruct (snd (generateJWT agent (afterClock w) _ _)).
  - unfold newWriteRequest, bind. rewrite generateWriteTokenStr_run. simpl.
    now destruct (snd (generateJWT agent (afterClock w) _ _)).
Qed.

(** NewRequest either stops before any signing, leaving the world as it
    was, or calls the signer once, for the identity of the method. *)
Lemma NewRequest_world (agent : Agent) (method urlStr : string)
  (body : option Reader) (w : World) :
  let cfg := config agent in
  snd (NewRequest agent method urlStr body w) = w \/
  snd (NewRequest agent method urlStr body w)
  = afterSigning w (generateClaims (roleFor cfg method) cfg (clock w (ticks w)))
                 (secretFor cfg method).
Proof.
  intros cfg.
  destruct (String.eqb_spec urlStr "") as [->|Hu].
  { left. reflexivity. }
  destruct (String.eqb_spec method "") as [->|Hm].
  { left. unfold NewRequest. apply String.eqb_neq in Hu. now rewrite Hu. }
  right. now rewrite NewRequest_run.
Qed.

Lemma newRequest_ok (method urlStr tokenStr : string) (body : option Reader)
  (r : Request) :
  method <> "" ->
  newRequest method urlStr tokenStr body = Ok r ->
  requestFor method urlStr r /\ ReqBody r = body /\
  ReqHeader r = [("Authorization", tokenStr)].
Proof.
  intros Hm. apply String.eqb_neq in Hm.
  unfold newRequest, http_NewRequest, requestFor. rewrite Hm.
  destruct (http_NewRequest_URL method urlStr) as [u|e]; [|discriminate].
  intros H; injection H as <-. simpl. auto.
Qed.

(** A request NewRequest returns has the method and the URL asked for, no
    body on a GET and the given body otherwise, and for only header the
    token the signer gave for the identity of the method. *)
Lemma NewRequest_ok (agent : Agent) (method urlStr : string)
  (body : option Reader) (w : World) (r : Request) :
  fst (NewRequest agent method urlStr body w) = Ok r ->
  let cfg := config agent in
  let claims := generateClaims (roleFor cfg method) cfg (clock w (ticks w)) in
  requestFor method urlStr r /\
  ReqBody r = (if String.eqb method http_MethodGet then None else body) /\
  ReqHeader r =
    [("Authorization",
      "Bearer " ++ fst (generateJWT agent (afterClock w) claims
                                    (secretFor cfg method)))] /\
  snd (NewRequest agent method urlStr body w)
  = afterSigning w claims (secretFor cfg method).
Proof.
  intros H cfg claims.
  destruct (String.eqb_spec urlStr "") as [->|Hu]; [discriminate H|].
  destruct (String.eqb_spec method "") as [->|Hm].
  { unfold NewRequest in H. apply String.eqb_neq in Hu. rewrite Hu in H.
    discriminate H. }
  rewrite NewRequest_run in * by assumption. simpl in *.
  fold cfg claims in H.
  destruct (snd (generateJWT agent (afterClock w) claims (secretFor cfg method)));
    [discriminate H|].
  apply newRequest_ok in H; [|assumption].
  destruct H as (H1 & H2 & H3). auto.
Qed.

(** sendRequest either fails as NewRequest did, without reaching the
    transport, or hands the transport the request NewRequest made. *)
Lemma sendRequest_cases (agent : Agent) (method urlStr : string)
  (body : option Reader) (w : World) :
  let built := NewRequest agent method urlStr body w in
  (exists e, fst built = Err e /\
             sendRequest agent method urlStr body w = (Err e, snd built)) \/
  (exists r, fst built = Ok r /\
             sendRequest agent method urlStr body w
             = (Do (httpClient agent) (snd built) r, afterSending (snd built) r)).
Proof.
  intros built. unfold sendRequest, bind. fold built.
  destruct built as [[r|e] w1]; simpl; eauto.
Qed.

Lemma traceOf_unchanged {A : Type} (c : M A) (w : World)
  (P : Request -> Prop) (Q : Claims * string -> Prop) :
  snd (c w) = w -> traceOf c w P Q.
Proof.
  intros H. exists [], []. rewrite H, !app_nil_r. auto.
Qed.

Lemma traceOf_weaken {A : Type} (c : M A) (w : World)
  (P P' : Request -> Prop) (Q Q' : Claims * string -> Prop) :
  (forall r, P r -> P' r) -> (forall x, Q x -> Q' x) ->
  traceOf c w P Q -> traceOf c w P' Q'.
Proof.
  intros HP HQ (rs & cs & Hs & Hc & Hrs & Hcs).
  exists rs, cs. repeat split; try assumption.
  - eapply Forall_impl; eauto.
  - eapply Forall_impl; eauto.
Qed.

Lemma traceOf_same_world {A B : Type} (c : M A) (d : M B) (w : World)
  (P : Request -> Prop) (Q : Claims * string -> Prop) :
  snd (d w) = snd (c w) -> traceOf c w P Q -> traceOf d w P Q.
Proof.
  intros H (rs & cs & Hs & Hc & Hrs & Hcs).
  exists rs, cs. rewrite H. auto.
Qed.

Lemma NewRequest_trace (agent : Agent) (method urlStr : string)
  (body : option Reader) (w : World) :
  traceOf (NewRequest agent method urlStr body) w (fun _ => False)
    (signedAs (config agent) (roleFor (config agent) method)
              (secretFor (config agent) method)).
Proof.
  destruct (NewRequest_world agent method urlStr body w) as [H|H].
  - now apply traceOf_unchanged.
  - eexists [], [_]. rewrite H. simpl. rewrite app_nil_r.
    repeat split; auto. constructor; [|constructor].
    repeat split.
Qed.

Lemma sendRequest_trace (agent : Agent) (method urlStr : string)
  (body : option Reader) (w : World) :
  traceOf (sendRequest agent method urlStr body) w
    (dispatched agent method urlStr body)
    (signedAs (config agent) (roleFor (config agent) method)
              (secretFor (config agent) method)).
Proof.
  destruct (NewRequest_trace agent method urlStr body w)
    as (rs & cs & Hs & Hc & Hrs & Hcs).
  destruct (sendRequest_cases agent method urlStr body w)
    as [(e & He & Hrun)|(r & Hr & Hrun)].
  - exists rs, cs. rewrite Hrun. simpl. repeat split; try assumption.
    eapply Forall_impl; [|exact Hrs]. intros ? [].
  - exists (rs ++ [r])%list, cs. rewrite Hrun. simpl.
    rewrite Hs, Hc, app_assoc. repeat split; try assumption.
    apply Forall_app. split.
    + eapply Forall_impl; [|exact Hrs]. intros ? [].
    + constructor; [|constructor].
      apply NewRequest_ok in Hr. destruct Hr as (H1 & H2 & H3 & _).
      repeat split; try (apply H1); try assumption.
      eexists _, _. split; [|rewrite H3; left; reflexivity]. reflexivity.
Qed.

End Dispatch.

(** ** The operations on tables *)

Section Operations.

Context {RT : Runtime}.

Lemma dispatched_issuedFor (agent : Agent) (method baseURL table urlStr : string)
  (query : option Values) (body : option Reader) (r : Request) :
  buildURLStr baseURL table query = Ok urlStr ->
  dispatched agent method urlStr body r ->
  issuedFor agent method baseURL table query body r.
Proof.
  intros Hb (H1 & H2 & H3). repeat split; try assumption.
  exists urlStr. auto.
Qed.

Ltac through_sendRequest :=
  match goal with
  | |- traceOf (match buildURLStr ?base ?table ?query with _ => _ end) _ _ _ =>
      let Hb := fresh "Hb" in
      destruct (buildURLStr base table query) as [urlStr|e] eqn:Hb;
      [ eapply traceOf_weaken; [| |apply sendRequest_trace];
        [ intros r Hr; eapply dispatched_issuedFor; eassumption
        | auto ]
      | now apply traceOf_unchanged ]
  end.

Lemma Get_trace (agent : Agent) (table : string) (query : option Values) (w : World) :
  traceOf (Get agent table query) w
    (issuedFor agent http_MethodGet (SlaveBaseURL (config agent)) table query None)
    (signedAs (config agent) (SlaveRole (config agent)) (SlaveSecret (config agent))).
Proof. unfold Get. through_sendRequest. Qed.

Lemma Post_trace (agent : Agent) (table : string) (body : option Reader) (w : World) :
  traceOf (Post agent table body) w
    (issuedFor agent http_MethodPost (MasterBaseURL (config agent)) table None body)
    (signedAs (config agent) (MasterRole (config agent)) (MasterSecret (config agent))).
Proof. unfold Post. through_sendRequest. Qed.

Lemma Patch_trace (agent : Agent) (table : string) (query : option Values)
  (body : option Reader) (w : World) :
  traceOf (Patch agent table query body) w
    (issuedFor agent http_MethodPatch (MasterBaseURL (config agent)) table query body)
    (signedAs (config agent) (MasterRole (config agent)) (MasterSecret (config agent))).
Proof. unfold Patch. through_sendRequest. Qed.

Lemma Delete_trace (agent : Agent) (table : string) (query : option Values)
  (w : World) :
  traceOf (Delete agent table query) w
    (issuedFor agent http_MethodDelete (MasterBaseURL (config agent)) table query None)
    (signedAs (config agent) (MasterRole (config agent)) (MasterSecret (config agent))).
Proof. unfold Delete. through_sendRequest. Qed.

Lemma PostAndReturn_trace (agent : Agent) (table : string) (body : option Reader)
  (w : World) :
  traceOf (PostAndReturn agent table body) w
    (issuedFor agent http_MethodPost (MasterBaseURL (config agent)) table None body)
    (signedAs (config agent) (MasterRole (config agent)) (MasterSecret (config agent))).
Proof.
  unfold PostAndReturn.
  destruct (buildURLStr (MasterBaseURL (config agent)) table None)
    as [urlStr|e] eqn:Hb; [|now apply traceOf_unchanged].
  destruct (NewRequest_trace agent http_MethodPost urlStr body w)
    as (rs & cs & Hs & Hc & Hrs & Hcs).
  unfold traceOf, bind.
  destruct (NewRequest agent http_MethodPost urlStr body w) as [[r|e] w1] eqn:Hn;
    simpl in Hs, Hc.
  - exists (rs ++ [Request_addHeader r "Prefer" "return=representation"])%list, cs.
    simpl. rewrite Hs, Hc, app_assoc. repeat split; try assumption.
    apply Forall_app. split.
    + eapply Forall_impl; [|exact Hrs]. intros ? [].
    + constructor; [|constructor].
      assert (Hr : fst (NewRequest agent http_MethodPost urlStr body w) = Ok r)
        by now rewrite Hn.
      apply NewRequest_ok in Hr. destruct Hr as ((H1 & H1') & H2 & H3 & _).
      repeat split.
      * exists urlStr. split; [assumption|]. split; assumption.
      * exact H2.
      * exists (afterClock w),
          (generateClaims (roleFor (config agent) http_MethodPost) (config agent)
                          (clock w (ticks w))).
        split; [reflexivity|]. simpl. unfold Header_Add.
        rewrite H3. left. reflexivity.
  - exists rs, cs. simpl. repeat split; try assumption.
    eapply Forall_impl; [|exact Hrs]. intros ? [].
Qed.

(** The JSON variants leave the world as their raw operation does. *)
Lemma GetJSON_world (agent : Agent) (table : string) (query : option Values)
  (target : option Value) (w : World) :
  snd (GetJSON agent table query target w) = snd (Get agent table query w).
Proof.
  unfold GetJSON, bind. now destruct (Get agent table query w) as [[r|e] w1].
Qed.

Lemma DeleteJSON_world (agent : Agent) (table : string) (query : option Values)
  (w : World) :
  snd (DeleteJSON agent table query w) = snd (Delete agent table query w).
Proof.
  unfold DeleteJSON, bind. now destruct (Delete agent table query w) as [[r|e] w1].
Qed.

Lemma PatchJSON_world (agent : Agent) (table : string) (query : option Values)
  (payload : Value) (w : World) :
  snd (PatchJSON agent table query payload w) = w \/
  snd (PatchJSON agent table query payload w)
  = snd (Patch agent table query (Some (fst (jsonEncode payload))) w).
Proof.
  unfold PatchJSON, bind. destruct (jsonEncode payload) as [body [e|]]; simpl.
  - now left.
  - right. now destruct (Patch agent table query (Some body) w) as [[r|e] w1].
Qed.

Lemma PostJSON_world (agent : Agent) (table : string) (payload : Value)
  (target : option Value) (w : World) :
  snd (PostJSON agent table payload target w) = w \/
  snd (PostJSON agent table payload target w)
  = snd (Post agent table (Some (fst (jsonEncode payload))) w) \/
  snd (PostJSON agent table payload target w)
  = snd (PostAndReturn agent table (Some (fst (jsonEncode payload))) w).
Proof.
  unfold PostJSON, bind. destruct (jsonEncode payload) as [body [e|]]; simpl.
  - now left.
  - right. destruct target as [t|].
    + right. now destruct (PostAndReturn agent table (Some body) w) as [[r|e] w1].
    + left. now destruct (Post agent table (Some body) w) as [[r|e] w1].
Qed.

Lemma GetJSON_trace (agent : Agent) (table : string) (query : option Values)
  (target : option Value) (w : World) :
  traceOf (GetJSON agent table query target) w
    (issuedFor agent http_MethodGet (SlaveBaseURL (config agent)) table query None)
    (signedAs (config agent) (SlaveRole (config agent)) (SlaveSecret (config agent))).
Proof.
  eapply traceOf_same_world; [apply GetJSON_world | apply Get_trace].
Qed.

Lemma DeleteJSON_trace (agent : Agent) (table : string) (query : option Values)
  (w : World) :
  traceOf (DeleteJSON agent table query) w
    (issuedFor agent http_MethodDelete (MasterBaseURL (config agent)) table query None)
    (signedAs (config agent) (MasterRole (config agent)) (MasterSecret (config agent))).
Proof.
  eapply traceOf_same_world; [apply DeleteJSON_world | apply Delete_trace].
Qed.

Lemma PatchJSON_trace (agent : Agent) (table : string) (query : option Values)
  (payload : Value) (w : World) :
  traceOf (PatchJSON agent table query payload) w
    (issuedFor agent http_MethodPatch (MasterBaseURL (config agent)) table query
               (Some (fst (jsonEncode payload))))
    (signedAs (config agent) (MasterRole (config agent)) (MasterSecret (config agent))).
Proof.
  destruct (PatchJSON_world agent table query payload w) as [H|H].
  - now apply traceOf_unchanged.
  - eapply traceOf_same_world; [exact H | apply Patch_trace].
Qed.

Lemma PostJSON_trace (agent : Agent) (table : string) (payload : Value)
  (target : option Value) (w : World) :
  traceOf (PostJSON agent table payload target) w
    (issuedFor agent http_MethodPost (MasterBaseURL (config agent)) table None
               (Some (fst (jsonEncode payload))))
    (signedAs (config agent) (MasterRole (config agent)) (MasterSecret (config agent))).
Proof.
  destruct (PostJSON_world agent table payload target w) as [H|[H|H]].
  - now apply traceOf_unchanged.
  - eapply traceOf_same_world; [exact H | apply Post_trace].
  - eapply traceOf_same_world; [exact H | apply PostAndReturn_trace].
Qed.

End Operations.

(** ** Routing *)

Section Routing.

Context {RT : Runtime}.

Lemma roleFor_other (cfg : Config) (method : string) :
  method <> http_MethodGet ->
  roleFor cfg method = MasterRole cfg /\ secretFor cfg method = MasterSecret cfg.
Proof.
  intros H. apply String.eqb_neq in H. unfold roleFor, secretFor. now rewrite H.
Qed.

(** C1, as the code has it.  The identity is a function of the method alone:
    NewRequest has the signer sign claims of the replica role with the
    replica secret for GET, and claims of the primary role with the primary
    secret for every other non-empty method.  The base address is chosen by
    the operation: every request of Get and GetJSON is a GET of the URL
    built on the replica base address, every request of Post, PostAndReturn,
    PostJSON, Patch, PatchJSON, Delete and DeleteJSON is a POST, PATCH or
    DELETE of the URL built on the primary base address, each carrying the
    token of the identity of its method. *)
Theorem identity_by_method_address_by_operation :
  forall agent : Agent,
    let cfg := config agent in
    let replica := signedAs cfg (SlaveRole cfg) (SlaveSecret cfg) in
    let primary := signedAs cfg (MasterRole cfg) (MasterSecret cfg) in
    (forall urlStr body w, urlStr <> "" ->
       signed (snd (NewRequest agent http_MethodGet urlStr body w))
       = (signed w ++ [(generateClaims (SlaveRole cfg) cfg (clock w (ticks w)),
                        SlaveSecret cfg)])%list) /\
    (forall method urlStr body w,
       urlStr <> "" -> method <> "" -> method <> http_MethodGet ->
       signed (snd (NewRequest agent method urlStr body w))
       = (signed w ++ [(generateClaims (MasterRole cfg) cfg (clock w (ticks w)),
                        MasterSecret cfg)])%list) /\
    (forall table query w,
       traceOf (Get agent table query) w
         (issuedFor agent http_MethodGet (SlaveBaseURL cfg) table query None)
         replica) /\
    (forall table query target w,
       traceOf (GetJSON agent table query target) w
         (issuedFor agent http_MethodGet (SlaveBaseURL cfg) table query None)
         replica) /\
    (forall table body w,
       traceOf (Post agent table body) w
         (issuedFor agent http_MethodPost (MasterBaseURL cfg) table None body)
         primary) /\
    (forall table body w,
       traceOf (PostAndReturn agent table body) w
         (issuedFor agent http_MethodPost (MasterBaseURL cfg) table None body)
         primary) /\
    (forall table payload target w,
       traceOf (PostJSON agent table payload target) w
         (issuedFor agent http_MethodPost (MasterBaseURL cfg) table None
                    (Some (fst (jsonEncode payload))))
         primary) /\
    (forall table query body w,
       traceOf (Patch agent table query body) w
         (issuedFor agent http_MethodPatch (MasterBaseURL cfg) table query body)
         primary) /\
    (forall table query payload w,
       traceOf (PatchJSON agent table query payload) w
         (issuedFor agent http_MethodPatch (MasterBaseURL cfg) table query
                    (Some (fst (jsonEncode payload))))
         primary) /\
    (forall table query w,
       traceOf (Delete agent table query) w
         (issuedFor agent http_MethodDelete (MasterBaseURL cfg) table query None)
         primary) /\
    (forall table query w,
       traceOf (DeleteJSON agent table query) w
         (issuedFor agent http_MethodDelete (MasterBaseURL cfg) table query None)
         primary).
Proof.
  intros agent cfg replica primary.
  split.
  { intros urlStr body w Hu. rewrite NewRequest_run by (assumption || discriminate).
    reflexivity. }
  split.
  { intros method urlStr body w Hu Hm Hg. rewrite NewRequest_run by assumption.
    simpl. destruct (roleFor_other (config agent) method Hg) as [-> ->].
    reflexivity. }
  split; [intros; apply Get_trace|].
  split; [intros; apply GetJSON_trace|].
  split; [intros; apply Post_trace|].
  split; [intros; apply PostAndReturn_trace|].
  split; [intros; apply PostJSON_trace|].
  split; [intros; apply Patch_trace|].
  split; [intros; apply PatchJSON_trace|].
  split; [intros; apply Delete_trace|].
  intros; apply DeleteJSON_trace.
Qed.

(** C10.  Delete and DeleteJSON take a table and a query and nothing else,
    and whatever they hand to the transport is a DELETE request without
    body. *)
Theorem delete_carries_no_body :
  forall (agent : Agent) (table : string) (query : option Values) (w : World),
    traceOf (Delete agent table query) w
      (fun r => Method r = http_MethodDelete /\ ReqBody r = None)
      (fun _ => True) /\
    traceOf (DeleteJSON agent table query) w
      (fun r => Method r = http_MethodDelete /\ ReqBody r = None)
      (fun _ => True).
Proof.
  intros agent table query w.
  assert (Hw : forall r,
             issuedFor agent http_MethodDelete (MasterBaseURL (config agent))
                       table query None r ->
             Method r = http_MethodDelete /\ ReqBody r = None).
  { intros r ((urlStr & _ & Hm & _) & Hbody & _). split; assumption. }
  split.
  - eapply traceOf_weaken; [exact Hw | | apply Delete_trace]. auto.
  - eapply traceOf_weaken; [exact Hw | | apply DeleteJSON_trace]. auto.
Qed.

End Routing.

Lemma identity_by_method_address_by_operation_witness :
  signed (snd (NewRequest TestDoubles.testAgent "PATCH" "http://master/t"
                          (Some "{}") TestDoubles.world0))
  = [(mkClaims "masterRole" "test" 1800000005, "masterSecret")].
Proof.
  pose proof (identity_by_method_address_by_operation TestDoubles.testAgent)
    as (_ & H & _).
  rewrite (H "PATCH" "http://master/t" (Some "{}") TestDoubles.world0)
    by discriminate.
  reflexivity.
Defined.

(** C1 read over every request of the agent fails on Ping: its first
    probe is a GET handed to the transport for the primary address. *)
Lemma ping_sends_GET_to_primary :
  (exists r rest,
      sent (snd (Ping TestDoubles.testAgent TestDoubles.world0)) = r :: rest /\
      Method r = "GET" /\ Host (ReqURL r) = "master") /\
  ~ routedByMethod TestDoubles.testConfig
      (sent (snd (Ping TestDoubles.testAgent TestDoubles.world0))).
Proof.
  split.
  - eexists _, _. split; [vm_compute; reflexivity|]. split; reflexivity.
  - intros H.
    assert (Hin : exists r,
               In r (sent (snd (Ping TestDoubles.testAgent TestDoubles.world0)))
               /\ Method r = "GET" /\ Host (ReqURL r) = "master").
    { eexists. split; [vm_compute; left; reflexivity|]. split; reflexivity. }
    destruct Hin as (r & Hin & Hm & Hh).
    specialize (H r Hin). rewrite Hm in H. simpl in H.
    destruct H as (u & Hu & _ & Hhost).
    vm_compute in Hu. injection Hu as <-. rewrite Hh in Hhost.
    vm_compute in Hhost. discriminate.
Qed.

(** A run of Delete on the test server: one DELETE request, without body. *)
Example delete_run :
  map (fun r => (Method r, ReqBody r))
      (sent (snd (Delete TestDoubles.testAgent "test_table"
                         (Some [("id", ["1"])]) TestDoubles.world0)))
  = [("DELETE", None)].
Proof. reflexivity. Qed.

(** ** Ping *)

Section Health.

Context {RT : Runtime}.

Lemma traceOf_bind {A B : Type} (c : M A) (k : A -> M B) (w : World)
  (P : Request -> Prop) (Q : Claims * string -> Prop) :
  traceOf c w P Q ->
  (forall x, traceOf (k x) (snd (c w)) P Q) ->
  traceOf (bind c k) w P Q.
Proof.
  intros (rs & cs & Hs & Hc & Hrs & Hcs) Hk.
  unfold traceOf, bind. destruct (c w) as [x w1]. simpl in *.
  destruct (Hk x) as (rs' & cs' & Hs' & Hc' & Hrs' & Hcs').
  exists (rs ++ rs')%list, (cs ++ cs')%list.
  rewrite Hs', Hc', Hs, Hc, !app_assoc.
  repeat split; try reflexivity; apply Forall_app; auto.
Qed.

Lemma probe_trace (agent : Agent) (url : string) (w : World) :
  let cfg := config agent in
  traceOf (sendRequest agent http_MethodGet url None) w
    (fun r => requestFor http_MethodGet url r /\ ReqBody r = None /\
              bearerOf agent (SlaveRole cfg) (SlaveSecret cfg) r)
    (signedAs cfg (SlaveRole cfg) (SlaveSecret cfg)).
Proof.
  intros cfg. eapply traceOf_weaken; [| |apply sendRequest_trace]; auto.
Qed.

Lemma pingAll_trace (agent : Agent) (urls : list (string * string)) :
  forall w : World,
    let cfg := config agent in
    traceOf (pingAll agent urls) w
      (fun r => Method r = http_MethodGet /\ ReqBody r = None /\
                bearerOf agent (SlaveRole cfg) (SlaveSecret cfg) r)
      (signedAs cfg (SlaveRole cfg) (SlaveSecret cfg)).
Proof.
  induction urls as [|[name url] rest IH]; intros w cfg.
  - now apply traceOf_unchanged.
  - simpl. apply traceOf_bind.
    + eapply traceOf_weaken; [| |apply (probe_trace agent url w)]; [|auto].
      intros r ((Hm & _) & Hb & Ha). auto.
    + intros [response|e].
      * destruct (isSuccess (StatusCode response)); simpl.
        -- apply IH.
        -- now apply traceOf_unchanged.
      * now apply traceOf_unchanged.
Qed.

(** Ping, its two iterations written out. *)
Lemma Ping_unfold (agent : Agent) (w : World) :
  Ping agent w =
  let (r1, w1) := sendRequest agent http_MethodGet (MasterBaseURL (config agent))
                              None w in
  match r1 with
  | Err e => (Some (fmt_Errorf ("master service error: " ++ Error e)), w1)
  | Ok response1 =>
      if isSuccess (StatusCode response1) then
        let (r2, w2) := sendRequest agent http_MethodGet
                                    (SlaveBaseURL (config agent)) None w1 in
        match r2 with
        | Err e => (Some (fmt_Errorf ("slave service error: " ++ Error e)), w2)
        | Ok response2 =>
            if isSuccess (StatusCode response2) then (None, w2)
            else (Some (fmt_Errorf ("slave service error: " ++ Status response2)), w2)
        end
      else (Some (fmt_Errorf ("master service error: " ++ Status response1)), w1)
  end.
Proof.
  unfold Ping, pingAll, bind.
  destruct (sendRequest agent http_MethodGet (MasterBaseURL (config agent)) None w)
    as [[response1|e1] w1]; [|reflexivity].
  destruct (isSuccess (StatusCode response1)); [|reflexivity]. simpl.
  destruct (sendRequest agent http_MethodGet (SlaveBaseURL (config agent)) None w1)
    as [[response2|e2] w2]; [|reflexivity].
  now destruct (isSuccess (StatusCode response2)).
Qed.

(** A probe reaches the transport once at most, with a GET of its address. *)
Lemma probe_sent (agent : Agent) (url : string) (w : World) :
  exists rs : list Request,
    sent (afterProbe agent url w) = (sent w ++ rs)%list /\
    (List.length rs <= 1)%nat /\
    Forall (requestFor http_MethodGet url) rs.
Proof.
  unfold afterProbe.
  assert (Hn : sent (snd (NewRequest agent http_MethodGet url None w)) = sent w).
  { destruct (NewRequest_world agent http_MethodGet url None w) as [H|H];
      now rewrite H. }
  destruct (sendRequest_cases agent http_MethodGet url None w)
    as [(e & He & Hrun)|(r & Hr & Hrun)]; rewrite Hrun; simpl.
  - exists []. rewrite app_nil_r. repeat split; auto.
  - exists [r]. rewrite Hn. repeat split; auto.
    constructor; [|constructor]. now apply NewRequest_ok in Hr.
Qed.

(** Whatever Ping signs after the probe of the primary address comes after
    what that probe signed. *)
Lemma ping_rest (agent : Agent) (w : World) :
  exists cs : list (Claims * string),
    signed (snd (Ping agent w))
    = (signed (afterProbe agent (MasterBaseURL (config agent)) w) ++ cs)%list.
Proof.
  rewrite Ping_unfold. unfold afterProbe.
  destruct (sendRequest agent http_MethodGet (MasterBaseURL (config agent)) None w)
    as [[response1|e1] w1]; simpl;
    [|exists []; now rewrite app_nil_r].
  destruct (isSuccess (StatusCode response1));
    [|exists []; now rewrite app_nil_r].
  destruct (probe_trace agent (SlaveBaseURL (config agent)) w1)
    as (rs & cs & _ & Hc & _).
  exists cs.
  destruct (sendRequest agent http_MethodGet (SlaveBaseURL (config agent)) None w1)
    as [[response2|e2] w2]; simpl in *; [|exact Hc].
  now destruct (isSuccess (StatusCode response2)).
Qed.

(** C4.  Ping probes the primary base address first.  If that probe fails,
    by an error or by a status outside [200,300), Ping returns an error that
    names "master" and the world is the one the primary probe left: the
    replica is not probed.  If it succeeds, the replica is probed next, and
    its failure is reported under the name "slave".  Ping returns no error
    exactly when both probes come back with a success status.  Each probe
    reaches the transport once at most, with a GET of its address. *)
Theorem ping_primary_first_fail_fast :
  forall (agent : Agent) (w : World),
    let master := MasterBaseURL (config agent) in
    let slave := SlaveBaseURL (config agent) in
    let w1 := afterProbe agent master w in
    (probeSucceeds agent master w = false ->
     Ping agent w
     = (Some (fmt_Errorf ("master service error: " ++ probeFailure agent master w)),
        w1)) /\
    (probeSucceeds agent master w = true ->
     probeSucceeds agent slave w1 = false ->
     Ping agent w
     = (Some (fmt_Errorf ("slave service error: " ++ probeFailure agent slave w1)),
        afterProbe agent slave w1)) /\
    (probeSucceeds agent master w = true ->
     probeSucceeds agent slave w1 = true ->
     Ping agent w = (None, afterProbe agent slave w1)) /\
    (fst (Ping agent w) = None <->
     probeSucceeds agent master w = true /\ probeSucceeds agent slave w1 = true) /\
    (forall url w0,
        exists rs : list Request,
          sent (afterProbe agent url w0) = (sent w0 ++ rs)%list /\
          (List.length rs <= 1)%nat /\
          Forall (requestFor http_MethodGet url) rs).
Proof.
  intros agent w master slave w1.
  assert (Hcases :
    (probeSucceeds agent master w = false /\
     Ping agent w
     = (Some (fmt_Errorf ("master service error: " ++ probeFailure agent master w)),
        w1)) \/
    (probeSucceeds agent master w = true /\
     probeSucceeds agent slave w1 = false /\
     Ping agent w
     = (Some (fmt_Errorf ("slave service error: " ++ probeFailure agent slave w1)),
        afterProbe agent slave w1)) \/
    (probeSucceeds agent master w = true /\
     probeSucceeds agent slave w1 = true /\
     Ping agent w = (None, afterProbe agent slave w1))).
  { rewrite Ping_unfold. subst w1 master slave.
    unfold probeSucceeds, probeFailure, afterProbe.
    destruct (sendRequest agent http_MethodGet (MasterBaseURL (config agent)) None w)
      as [[response1|e1] w1]; simpl; [|now left].
    destruct (isSuccess (StatusCode response1)); [|now left]. right.
    destruct (sendRequest agent http_MethodGet (SlaveBaseURL (config agent)) None w1)
      as [[response2|e2] w2]; simpl; [|now left].
    destruct (isSuccess (StatusCode response2)); [now right | now left]. }
  split; [|split; [|split; [|split]]].
  - intros H. destruct Hcases as [(_ & Hp)|[(H1 & _)|(H1 & _)]]; congruence.
  - intros H1 H2.
    destruct Hcases as [(H & _)|[(_ & _ & Hp)|(_ & H & _)]]; congruence.
  - intros H1 H2.
    destruct Hcases as [(H & _)|[(_ & H & _)|(_ & _ & Hp)]]; congruence.
  - destruct Hcases as [(H & Hp)|[(H1 & H2 & Hp)|(H1 & H2 & Hp)]];
      rewrite Hp; simpl; split; try discriminate; try tauto;
      intros [? ?]; congruence.
  - intros url w0. apply probe_sent.
Qed.

(** C9.  Every request Ping hands to the transport is a GET without body
    carrying a token signed for the replica role with the replica secret,
    and every call Ping makes to the signer is for the replica role with the
    replica secret.  This holds of the probe of the primary base address:
    it is a GET of that address, and when the address is not empty the first
    signing of Ping is the one of the replica claims for it. *)
Theorem ping_probes_as_replica :
  forall (agent : Agent) (w : World),
    let cfg := config agent in
    traceOf (Ping agent) w
      (fun r => Method r = http_MethodGet /\ ReqBody r = None /\
                bearerOf agent (SlaveRole cfg) (SlaveSecret cfg) r)
      (signedAs cfg (SlaveRole cfg) (SlaveSecret cfg)) /\
    traceOf (sendRequest agent http_MethodGet (MasterBaseURL cfg) None) w
      (fun r => requestFor http_MethodGet (MasterBaseURL cfg) r /\
                ReqBody r = None /\
                bearerOf agent (SlaveRole cfg) (SlaveSecret cfg) r)
      (signedAs cfg (SlaveRole cfg) (SlaveSecret cfg)) /\
    (MasterBaseURL cfg <> "" ->
     exists cs,
       signed (snd (Ping agent w))
       = (signed w
          ++ (generateClaims (SlaveRole cfg) cfg (clock w (ticks w)),
              SlaveSecret cfg) :: cs)%list).
Proof.
  intros agent w cfg.
  split; [apply pingAll_trace|]. split; [apply probe_trace|].
  intros Hurl.
  assert (H1 : signed (afterProbe agent (MasterBaseURL cfg) w)
               = (signed w ++ [(generateClaims (SlaveRole cfg) cfg (clock w (ticks w)),
                                SlaveSecret cfg)])%list).
  { unfold afterProbe.
    pose proof (NewRequest_run agent http_MethodGet (MasterBaseURL cfg) None w Hurl
                  ltac:(discriminate)) as Hn.
    simpl in Hn.
    destruct (sendRequest_cases agent http_MethodGet (MasterBaseURL cfg) None w)
      as [(e & _ & Hrun)|(r & _ & Hrun)]; rewrite Hrun, Hn; reflexivity. }
  destruct (ping_rest agent w) as (cs & Hcs).
  exists cs. fold cfg in Hcs. rewrite Hcs, H1, <- app_assoc. reflexivity.
Qed.

End Health.

Lemma ping_primary_first_fail_fast_witness :
  let agent := mkAgent (mkConfig "test" "http://master?error=404" "masterRole"
                          "masterSecret" "http://slave" "slaveRole"
                          "slaveSecret" 5)
                       TestDoubles.server TestDoubles.okSigner in
  probeSucceeds agent "http://master?error=404" TestDoubles.world0 = false /\
  fst (Ping agent TestDoubles.world0)
  = Some (errors_New "master service error: 404 Not Found") /\
  map (fun r => Host (ReqURL r)) (sent (snd (Ping agent TestDoubles.world0)))
  = ["master"].
Proof.
  intros agent.
  assert (Hp : probeSucceeds agent "http://master?error=404" TestDoubles.world0
               = false) by reflexivity.
  split; [exact Hp|].
  destruct (ping_primary_first_fail_fast agent TestDoubles.world0) as (H & _).
  rewrite (H Hp). split; reflexivity.
Defined.

Lemma ping_probes_as_replica_witness :
  MasterBaseURL (config TestDoubles.testAgent) <> "" /\
  exists cs,
    signed (snd (Ping TestDoubles.testAgent TestDoubles.world0))
    = (mkClaims "slaveRole" "test" 1800000005, "slaveSecret") :: cs.
Proof.
  assert (Hurl : MasterBaseURL (config TestDoubles.testAgent) <> "")
    by discriminate.
  split; [exact Hurl|].
  destruct (ping_probes_as_replica TestDoubles.testAgent TestDoubles.world0)
    as (_ & _ & H).
  destruct (H Hurl) as (cs & Hcs).
  exists cs. exact Hcs.
Defined.

(** ** Signing failures *)

Section SigningFailure.

Context {RT : Runtime}.

Variable agent : Agent.
Variable e : error.
Hypothesis signer_fails : signerFailsWith agent e.

Lemma NewRequest_signing_fails (method urlStr : string) (body : option Reader)
  (w : World) :
  urlStr <> "" -> method <> "" ->
  failsUnsent (NewRequest agent method urlStr body) w e.
Proof.
  intros Hu Hm. unfold failsUnsent.
  rewrite NewRequest_run by assumption. simpl.
  rewrite signer_fails. auto.
Qed.

Lemma sendRequest_signing_fails (method urlStr : string) (body : option Reader)
  (w : World) :
  urlStr <> "" -> method <> "" ->
  failsUnsent (sendRequest agent method urlStr body) w e.
Proof.
  intros Hu Hm.
  destruct (NewRequest_signing_fails method urlStr body w Hu Hm) as [Hf Hs].
  destruct (sendRequest_cases agent method urlStr body w)
    as [(e' & He & Hrun)|(r & Hr & _)]; [|congruence].
  unfold failsUnsent. rewrite Hrun. simpl. split; [congruence | assumption].
Qed.

Lemma failsUnsent_JSON (c : M (Result Response)) (target : option Value) (w : World) :
  failsUnsent c w e ->
  failsUnsentJSON
    (r <- c ;;
     match r with
     | Err e0 => ret (failed e0)
     | Ok response => ret (unmarshalResponse response target)
     end) w e.
Proof.
  intros [Hf Hs]. unfold failsUnsentJSON, bind.
  destruct (c w) as [[response|e0] w1]; simpl in *; [discriminate|].
  injection Hf as ->. auto.
Qed.

End SigningFailure.

Section SigningFailureOperations.

Context {RT : Runtime}.

(** C8.  With a signer that fails with [e], and a table, query and payload
    for which the URLs build and the payload encodes, NewRequest and every
    operation on a table, read or write, raw or JSON, fail with [e] itself
    (the JSON variants with status 0) and hand nothing to the transport. *)
Theorem signing_failure_propagates :
  forall (agent : Agent) (e : error),
    signerFailsWith agent e ->
    forall (table : string) (query : option Values) (body : option Reader)
           (payload : Value) (target : option Value) (w : World),
      let cfg := config agent in
      buildsURL (SlaveBaseURL cfg) table query ->
      buildsURL (MasterBaseURL cfg) table query ->
      buildsURL (MasterBaseURL cfg) table None ->
      snd (jsonEncode payload) = None ->
      (forall method urlStr, urlStr <> "" -> method <> "" ->
         failsUnsent (NewRequest agent method urlStr body) w e) /\
      failsUnsent (Get agent table query) w e /\
      failsUnsentJSON (GetJSON agent table query target) w e /\
      failsUnsent (Post agent table body) w e /\
      failsUnsent (PostAndReturn agent table body) w e /\
      failsUnsentJSON (PostJSON agent table payload target) w e /\
      failsUnsent (Patch agent table query body) w e /\
      failsUnsentJSON (PatchJSON agent table query payload) w e /\
      failsUnsent (Delete agent table query) w e /\
      failsUnsentJSON (DeleteJSON agent table query) w e.
Proof.
  intros agent e Hsign table query body payload target w cfg
         (su & Hsu & Hsu') (mu & Hmu & Hmu') (mu0 & Hmu0 & Hmu0') Henc.
  assert (HGet : failsUnsent (Get agent table query) w e).
  { unfold Get. fold cfg. rewrite Hsu.
    now apply sendRequest_signing_fails. }
  assert (HPost : forall b, failsUnsent (Post agent table b) w e).
  { intros b. unfold Post. fold cfg. rewrite Hmu0.
    now apply sendRequest_signing_fails. }
  assert (HPostR : forall b, failsUnsent (PostAndReturn agent table b) w e).
  { intros b. unfold PostAndReturn. fold cfg. rewrite Hmu0.
    destruct (NewRequest_signing_fails agent e Hsign http_MethodPost mu0 b w)
      as [Hf Hs]; [assumption | discriminate |].
    unfold failsUnsent, bind.
    destruct (NewRequest agent http_MethodPost mu0 b w) as [[r|e0] w1];
      simpl in *; [discriminate|].
    injection Hf as ->. split; [reflexivity | assumption]. }
  assert (HPatch : forall b, failsUnsent (Patch agent table query b) w e).
  { intros b. unfold Patch. fold cfg. rewrite Hmu.
    now apply sendRequest_signing_fails. }
  assert (HDelete : failsUnsent (Delete agent table query) w e).
  { unfold Delete. fold cfg. rewrite Hmu.
    now apply sendRequest_signing_fails. }
  split; [intros; now apply NewRequest_signing_fails|].
  split; [exact HGet|].
  split; [now apply (failsUnsent_JSON e)|].
  split; [apply HPost|].
  split; [apply HPostR|].
  split.
  { unfold PostJSON. destruct (jsonEncode payload) as [enc eerr].
    simpl in Henc. subst eerr.
    destruct target; apply (failsUnsent_JSON e); auto. }
  split; [apply HPatch|].
  split.
  { unfold PatchJSON. destruct (jsonEncode payload) as [enc eerr].
    simpl in Henc. subst eerr. apply (failsUnsent_JSON e); auto. }
  split; [exact HDelete|].
  now apply (failsUnsent_JSON e).
Qed.

End SigningFailureOperations.

Lemma signing_failure_propagates_witness :
  signerFailsWith TestDoubles.failingAgent TestDoubles.mockError /\
  failsUnsentJSON
    (GetJSON TestDoubles.failingAgent "test_table" (Some [("id", ["1"])]) None)
    TestDoubles.world0 TestDoubles.mockError /\
  failsUnsentJSON
    (PostJSON TestDoubles.failingAgent "test_table" (jsonText "{}")
              (Some (jsonText "")))
    TestDoubles.world0 TestDoubles.mockError.
Proof.
  assert (Hs : signerFailsWith TestDoubles.failingAgent TestDoubles.mockError)
    by (intros w c s; reflexivity).
  split; [exact Hs|].
  destruct (signing_failure_propagates TestDoubles.failingAgent
              TestDoubles.mockError Hs "test_table" (Some [("id", ["1"])])
              (Some "{}") (jsonText "{}") (Some (jsonText "")) TestDoubles.world0)
    as (_ & _ & _ & _ & _ & HPostJSON & _);
    try (eexists; split; [reflexivity | discriminate]); try reflexivity.
  destruct (signing_failure_propagates TestDoubles.failingAgent
              TestDoubles.mockError Hs "test_table" (Some [("id", ["1"])])
              (Some "{}") (jsonText "{}") None TestDoubles.world0)
    as (_ & _ & HGetJSON & _);
    try (eexists; split; [reflexivity | discriminate]); try reflexivity.
  split; assumption.
Defined.

(** * Further properties of the package *)

(** ** Claims validation *)

(** X1.  Valid accepts claims exactly when the role is present and the
    expiry lies strictly after the current Unix second; a missing role is
    reported even when the claims have expired as well, and an expiry equal
    to the current second is refused. *)
Theorem Valid_accepts_iff :
  forall (c : Claims) (now : Time),
    (Valid c now = None <-> Role c <> "" /\ Time_Unix now < ExpiresAt c) /\
    (Role c = "" -> Valid c now = Some errMissingRoleClaim) /\
    (Role c <> "" -> ExpiresAt c <= Time_Unix now ->
     Valid c now = Some errInvalidExpiryClaim).
Proof.
  intros c now. unfold Valid.
  destruct (String.eqb_spec (Role c) "") as [Hr|Hr];
    destruct (Z.leb_spec (ExpiresAt c) (Time_Unix now)) as [He|He].
  - repeat split; try reflexivity; try discriminate; try tauto.
  - repeat split; try reflexivity; try discriminate; try tauto.
  - repeat split; try reflexivity; try discriminate; try tauto.
    intros [_ H]. lia.
  - repeat split; try reflexivity; try tauto; try lia.
Qed.

Lemma Valid_accepts_iff_witness :
  Valid (mkClaims "" "issuer" 0) 5000000000 = Some errMissingRoleClaim /\
  Valid (mkClaims "role" "issuer" 5) 5000000000 = Some errInvalidExpiryClaim.
Proof.
  destruct (Valid_accepts_iff (mkClaims "" "issuer" 0) 5000000000)
    as (_ & H1 & _).
  destruct (Valid_accepts_iff (mkClaims "role" "issuer" 5) 5000000000)
    as (_ & _ & H2).
  split.
  - apply H1. reflexivity.
  - apply H2; [discriminate | vm_compute; discriminate].
Defined.

(** X2.  Run against the clock, Valid gives the verdict for the reading it
    takes, and takes a reading only when the role is present: claims
    without role are refused with the clock untouched. *)
Theorem Claims_Valid_reads_clock_after_role :
  forall (c : Claims) (w : World),
    fst (Claims_Valid c w) = Valid c (clock w (ticks w)) /\
    (Role c = "" -> snd (Claims_Valid c w) = w) /\
    (Role c <> "" -> snd (Claims_Valid c w) = afterClock w).
Proof.
  intros c w. unfold Claims_Valid, Valid, bind, time_Now, ret.
  destruct (String.eqb_spec (Role c) "") as [Hr|Hr]; simpl.
  - repeat split; intros; try reflexivity; contradiction.
  - destruct (ExpiresAt c <=? Time_Unix (clock w (ticks w))); simpl;
      repeat split; intros; try reflexivity; contradiction.
Qed.

Lemma Claims_Valid_reads_clock_after_role_witness :
  Claims_Valid (mkClaims "" "issuer" 0) TestDoubles.world0
  = (Some errMissingRoleClaim, TestDoubles.world0) /\
  ticks (snd (Claims_Valid (mkClaims "role" "issuer" 1800000001)
                           TestDoubles.world0)) = 1%nat.
Proof.
  destruct (Claims_Valid_reads_clock_after_role (mkClaims "" "issuer" 0)
              TestDoubles.world0) as (H1 & H2 & _).
  destruct (Claims_Valid_reads_clock_after_role
              (mkClaims "role" "issuer" 1800000001) TestDoubles.world0)
    as (_ & _ & H3).
  split.
  - rewrite (surjective_pairing (Claims_Valid _ _)), H1, (H2 eq_refl).
    reflexivity.
  - rewrite H3 by discriminate. reflexivity.
Defined.

(** ** Configuration validation and construction *)

Lemma In_optional (x n : string) (b : bool) :
  In x (if b then [n] else []) <-> b = true /\ x = n.
Proof.
  destruct b; simpl; split; try tauto.
  - intros [->|[]]. auto.
  - intros [_ ->]. auto.
  - intros [H _]. discriminate.
Qed.

Lemma In_missingFields (c : Config) (name : string) :
  In name (missingFields c) <->
  (MasterBaseURL c = "" /\ name = "MasterBaseURL") \/
  (MasterRole c = "" /\ name = "MasterRole") \/
  (MasterSecret c = "" /\ name = "MasterSecret") \/
  (SlaveBaseURL c = "" /\ name = "SlaveBaseURL") \/
  (SlaveRole c = "" /\ name = "SlaveRole") \/
  (SlaveSecret c = "" /\ name = "SlaveSecret") \/
  (Timeout c <= 0 /\ name = "Timeout").
Proof.
  unfold missingFields. rewrite !in_app_iff, !In_optional, !String.eqb_eq,
    Z.leb_le. tauto.
Qed.

Lemma missingFields_nil (c : Config) : missingFields c = [] <-> configured c.
Proof.
  unfold configured. split.
  - intros H.
    assert (Hn : forall name, ~ In name (missingFields c))
      by (intros name; rewrite H; simpl; tauto).
    repeat split; try (intros He; eapply Hn; apply In_missingFields; eauto 10).
    destruct (Z.ltb_spec 0 (Timeout c)) as [Ht|Ht]; [exact Ht|].
    exfalso. eapply Hn. apply In_missingFields. eauto 10.
  - intros (H1 & H2 & H3 & H4 & H5 & H6 & H7).
    destruct (missingFields c) as [|name rest] eqn:Hm; [reflexivity|].
    assert (Hin : In name (missingFields c)) by (rewrite Hm; left; reflexivity).
    apply In_missingFields in Hin.
    exfalso. intuition lia.
Qed.

(** X3.  validateConfig lists a field exactly when it is one of the six
    required strings left empty or the lifetime left non-positive: nothing
    else is ever listed, the issuer never, and a configuration is accepted
    exactly when all seven are in order. *)
Theorem validateConfig_lists_exactly_the_invalid :
  forall c : Config,
    let listed := collectInvalid (Config_fields c) in
    (In "MasterBaseURL" listed <-> MasterBaseURL c = "") /\
    (In "MasterRole" listed <-> MasterRole c = "") /\
    (In "MasterSecret" listed <-> MasterSecret c = "") /\
    (In "SlaveBaseURL" listed <-> SlaveBaseURL c = "") /\
    (In "SlaveRole" listed <-> SlaveRole c = "") /\
    (In "SlaveSecret" listed <-> SlaveSecret c = "") /\
    (In "Timeout" listed <-> Timeout c <= 0) /\
    (forall name, In name listed ->
       In name ["MasterBaseURL"; "MasterRole"; "MasterSecret"; "SlaveBaseURL";
                "SlaveRole"; "SlaveSecret"; "Timeout"]) /\
    (validateConfig c = None <-> configured c).
Proof.
  intros c listed. subst listed. rewrite collectInvalid_fields.
  assert (Hname : forall name,
             In name (missingFields c) ->
             In name ["MasterBaseURL"; "MasterRole"; "MasterSecret";
                      "SlaveBaseURL"; "SlaveRole"; "SlaveSecret"; "Timeout"]).
  { intros name H. apply In_missingFields in H. simpl. intuition. }
  assert (Hok : validateConfig c = None <-> configured c).
  { rewrite <- missingFields_nil, validateConfig_missing.
    destruct (missingFields c); split; congruence. }
  repeat match goal with |- _ /\ _ => split end;
    try exact Hname; try exact Hok;
    rewrite In_missingFields; intuition congruence.
Qed.

Lemma validateConfig_lists_exactly_the_invalid_witness :
  let c := mkConfig "" "http://master" "" "masterSecret" "http://slave"
                    "slaveRole" "slaveSecret" (-1) in
  collectInvalid (Config_fields c) = ["MasterRole"; "Timeout"] /\
  ~ In "MasterSecret" (collectInvalid (Config_fields c)) /\
  validateConfig TestDoubles.testConfig = None.
Proof.
  intros c.
  destruct (validateConfig_lists_exactly_the_invalid c)
    as (_ & _ & H3 & _).
  destruct (validateConfig_lists_exactly_the_invalid TestDoubles.testConfig)
    as (_ & _ & _ & _ & _ & _ & _ & _ & H9).
  split; [reflexivity|]. split.
  - intros H. apply H3 in H. discriminate H.
  - apply H9. repeat split; try discriminate.
Defined.

(** X4.  NewAgent checks its arguments in the order configuration,
    transport, signer, and validates the configuration last: a missing
    configuration is reported whatever the others are, a missing transport
    before a missing signer, and both before any invalid field.  It returns
    an agent exactly when all three are given and the configuration is in
    order, and the agent holds the three as given. *)
Theorem NewAgent_checks_in_order :
  forall (cfg : option Config) (client : option HTTPClientAdapter)
         (gen : option JWTGenerator),
    (cfg = None -> NewAgent cfg client gen = Err errMissingConfigParams) /\
    (cfg <> None -> client = None ->
     NewAgent cfg client gen = Err errMissingHTTPClient) /\
    (cfg <> None -> client <> None -> gen = None ->
     NewAgent cfg client gen = Err errMissingJWTGenerator) /\
    (forall agent,
        NewAgent cfg client gen = Ok agent <->
        cfg = Some (config agent) /\ client = Some (httpClient agent) /\
        gen = Some (generateJWT agent) /\ configured (config agent)).
Proof.
  intros cfg client gen. unfold NewAgent.
  split; [intros ->; reflexivity|].
  split; [intros Hc ->; destruct cfg; [reflexivity | congruence]|].
  split.
  { intros Hc Hcl ->. destruct cfg; [|congruence].
    destruct client; [reflexivity | congruence]. }
  intros agent. split.
  - destruct cfg as [c|]; [|discriminate].
    destruct client as [cl|]; [|discriminate].
    destruct gen as [g|]; [|discriminate].
    destruct (validateConfig c) eqn:Hv; [discriminate|].
    intros H. injection H as <-. simpl.
    do 3 (split; [reflexivity|]).
    apply missingFields_nil. rewrite validateConfig_missing in Hv.
    destruct (missingFields c); [reflexivity | discriminate].
  - intros (-> & -> & -> & Hok).
    apply missingFields_nil in Hok.
    rewrite validateConfig_missing, Hok. now destruct agent.
Qed.

Lemma NewAgent_checks_in_order_witness :
  NewAgent (Some (mkConfig "" "" "" "" "" "" "" 0)) None None
  = Err errMissingHTTPClient /\
  NewAgent (Some (mkConfig "" "" "" "" "" "" "" 0)) (Some TestDoubles.server) None
  = Err errMissingJWTGenerator /\
  NewAgent (Some TestDoubles.testConfig) (Some TestDoubles.server)
           (Some TestDoubles.okSigner) = Ok TestDoubles.testAgent.
Proof.
  pose proof (NewAgent_checks_in_order (Some (mkConfig "" "" "" "" "" "" "" 0))
                None None) as (_ & H1 & _).
  pose proof (NewAgent_checks_in_order (Some (mkConfig "" "" "" "" "" "" "" 0))
                (Some TestDoubles.server) None) as (_ & _ & H2 & _).
  pose proof (NewAgent_checks_in_order (Some TestDoubles.testConfig)
                (Some TestDoubles.server) (Some TestDoubles.okSigner))
    as (_ & _ & _ & H3).
  split; [apply H1; [discriminate | reflexivity]|].
  split; [apply H2; [discriminate | discriminate | reflexivity]|].
  apply H3. repeat split; try discriminate.
Defined.

(** ** Request construction *)

Section RequestConstruction.

Context {RT : Runtime}.

(** X5.  A request without URL is refused with the missing-URL error, also
    when the method is missing too; a request with a URL and without method
    is refused with the missing-method error.  Either way NewRequest and
    sendRequest stop there: the clock is not read, nothing is signed and
    nothing is sent. *)
Theorem request_shape_errors_before_io :
  forall (agent : Agent) (method urlStr : string) (body : option Reader)
         (w : World),
    (urlStr = "" ->
     NewRequest agent method urlStr body w = (Err errMissingRequestURL, w) /\
     sendRequest agent method urlStr body w = (Err errMissingRequestURL, w)) /\
    (urlStr <> "" -> method = "" ->
     NewRequest agent method urlStr body w = (Err errMissingRequestMethod, w) /\
     sendRequest agent method urlStr body w = (Err errMissingRequestMethod, w)).
Proof.
  intros agent method urlStr body w. split.
  - intros ->. split; reflexivity.
  - intros Hu ->. apply String.eqb_neq in Hu.
    unfold sendRequest, bind, NewRequest. rewrite Hu. split; reflexivity.
Qed.

(** X6.  A body passed along with GET is dropped: NewRequest and
    sendRequest behave for GET as if no body had been given, and a GET
    request they build carries none; for any other method the request
    carries the body as given. *)
Theorem get_request_has_no_body :
  forall (agent : Agent) (urlStr : string) (body : option Reader) (w : World),
    NewRequest agent http_MethodGet urlStr body w
    = NewRequest agent http_MethodGet urlStr None w /\
    sendRequest agent http_MethodGet urlStr body w
    = sendRequest agent http_MethodGet urlStr None w /\
    (forall r, fst (NewRequest agent http_MethodGet urlStr body w) = Ok r ->
               ReqBody r = None) /\
    (forall method r,
        method <> http_MethodGet ->
        fst (NewRequest agent method urlStr body w) = Ok r ->
        ReqBody r = body).
Proof.
  intros agent urlStr body w.
  assert (Hn : NewRequest agent http_MethodGet urlStr body w
               = NewRequest agent http_MethodGet urlStr None w) by reflexivity.
  split; [exact Hn|]. split; [unfold sendRequest, bind; now rewrite Hn|].
  split.
  - intros r Hr. apply NewRequest_ok in Hr. now destruct Hr as (_ & -> & _).
  - intros method r Hm Hr. apply NewRequest_ok in Hr.
    destruct Hr as (_ & -> & _). apply String.eqb_neq in Hm. now rewrite Hm.
Qed.

(** X7.  With a URL and a method, NewRequest reads the clock once and calls
    the signer once, before the method and URL are checked by the HTTP
    library.  When the signer gives a token, a URL or method the library
    refuses makes NewRequest fail with the library's error, the signing
    done; otherwise the request has the method and the parsed URL, the
    single header "Authorization: Bearer <token>", and no other header. *)
Theorem NewRequest_with_token :
  forall (agent : Agent) (method urlStr : string) (body : option Reader)
         (w : World) (tok : string),
    urlStr <> "" -> method <> "" ->
    let cfg := config agent in
    let claims := generateClaims (roleFor cfg method) cfg (clock w (ticks w)) in
    let secret := secretFor cfg method in
    generateJWT agent (afterClock w) claims secret = (tok, None) ->
    snd (NewRequest agent method urlStr body w) = afterSigning w claims secret /\
    (forall e, http_NewRequest_URL method urlStr = Err e ->
               fst (NewRequest agent method urlStr body w) = Err e) /\
    (forall u, http_NewRequest_URL method urlStr = Ok u ->
               fst (NewRequest agent method urlStr body w)
               = Ok {| Method := method; ReqURL := u;
                       ReqHeader := [("Authorization", "Bearer " ++ tok)];
                       ReqBody := if String.eqb method http_MethodGet
                                  then None else body |}).
Proof.
  intros agent method urlStr body w tok Hu Hm cfg claims secret Hsign.
  rewrite NewRequest_run by assumption. fold cfg claims secret.
  rewrite Hsign. simpl. split; [reflexivity|].
  apply String.eqb_neq in Hm.
  unfold newRequest, http_NewRequest. rewrite Hm. split.
  - intros e He. now rewrite He.
  - intros u Hurl. now rewrite Hurl.
Qed.

(** X8.  For an agent NewAgent has built, with a lifetime of at most
    9223372036 seconds, the claims NewRequest has signed pass Valid at any
    instant before the Unix second of the signing plus the lifetime, and at
    no later instant; in particular they pass it at the instant they are
    made, and the secret handed to the signer is not empty. *)
Theorem minted_claims_valid_for_their_lifetime :
  forall (cfg : option Config) (client : option HTTPClientAdapter)
         (gen : option JWTGenerator) (agent : Agent),
    NewAgent cfg client gen = Ok agent ->
    Timeout (config agent) <= 9223372036 ->
    forall (method urlStr : string) (body : option Reader) (w : World),
      urlStr <> "" -> method <> "" ->
      exists (claims : Claims) (secret : string),
        signed (snd (NewRequest agent method urlStr body w))
        = (signed w ++ [(claims, secret)])%list /\
        secret <> "" /\
        Valid claims (clock w (ticks w)) = None /\
        (forall later : Time,
            Valid claims later = None <->
            Time_Unix later
            < Time_Unix (clock w (ticks w)) + Timeout (config agent)).
Proof.
  intros cfg client gen agent Hnew Hmax method urlStr body w Hu Hm.
  assert (Hok : configured (config agent)).
  { unfold NewAgent in Hnew.
    destruct cfg as [c|]; [|discriminate].
    destruct client as [cl|]; [|discriminate].
    destruct gen as [g|]; [|discriminate].
    destruct (validateConfig c) eqn:Hv; [discriminate|].
    injection Hnew as <-. simpl.
    apply missingFields_nil. rewrite validateConfig_missing in Hv.
    destruct (missingFields c); [reflexivity | discriminate]. }
  destruct Hok as (_ & Hmr & Hms & _ & Hsr & Hss & Ht).
  exists (generateClaims (roleFor (config agent) method) (config agent)
                         (clock w (ticks w))),
         (secretFor (config agent) method).
  rewrite NewRequest_run by assumption. simpl.
  assert (Hrole : roleFor (config agent) method <> "")
    by (unfold roleFor; destruct (String.eqb method http_MethodGet); assumption).
  assert (Hexp : ExpiresAt (generateClaims (roleFor (config agent) method)
                                           (config agent) (clock w (ticks w)))
                 = Time_Unix (clock w (ticks w)) + Timeout (config agent))
    by (apply expiry_in_seconds; lia).
  assert (Hvalid : forall later,
             Valid (generateClaims (roleFor (config agent) method)
                                   (config agent) (clock w (ticks w))) later
             = None <->
             Time_Unix later
             < Time_Unix (clock w (ticks w)) + Timeout (config agent)).
  { intros later. unfold Valid. rewrite Hexp. simpl.
    apply String.eqb_neq in Hrole. rewrite Hrole.
    destruct (Z.leb_spec (Time_Unix (clock w (ticks w)) + Timeout (config agent))
                         (Time_Unix later)); split; intros; try discriminate;
      try reflexivity; lia. }
  split; [reflexivity|]. split.
  - unfold secretFor. destruct (String.eqb method http_MethodGet); assumption.
  - split; [apply Hvalid; lia | exact Hvalid].
Qed.

End RequestConstruction.

Lemma get_request_has_no_body_witness :
  exists r,
    fst (NewRequest TestDoubles.testAgent "PATCH" "http://master/t" (Some "{}")
                    TestDoubles.world0) = Ok r /\
    ReqBody r = Some "{}".
Proof.
  destruct (get_request_has_no_body (RT := TestDoubles.runtime)
              TestDoubles.testAgent "http://master/t" (Some "{}")
              TestDoubles.world0) as (_ & _ & _ & H).
  eexists. split; [reflexivity|].
  apply (H "PATCH"); [discriminate | reflexivity].
Defined.

Lemma NewRequest_with_token_witness :
  fst (NewRequest TestDoubles.testAgent "POST" "://xy/" (Some "{}")
                  TestDoubles.world0)
  = Err (errors_New "parse ://xy/: missing protocol scheme") /\
  signed (snd (NewRequest TestDoubles.testAgent "POST" "://xy/" (Some "{}")
                          TestDoubles.world0))
  = [(mkClaims "masterRole" "test" 1800000005, "masterSecret")].
Proof.
  destruct (NewRequest_with_token (RT := TestDoubles.runtime)
              TestDoubles.testAgent "POST" "://xy/" (Some "{}")
              TestDoubles.world0 "secret")
    as (Hw & He & _); try discriminate; try reflexivity.
  split.
  - apply He. reflexivity.
  - rewrite Hw. reflexivity.
Defined.

Lemma minted_claims_valid_for_their_lifetime_witness :
  exists (claims : Claims) (secret : string),
    signed (snd (NewRequest TestDoubles.testAgent "GET" "http://slave/t" None
                            TestDoubles.world0)) = [(claims, secret)] /\
    Valid claims 1800000004999999999 = None /\
    Valid claims 1800000005000000000 <> None.
Proof.
  destruct (minted_claims_valid_for_their_lifetime (RT := TestDoubles.runtime)
              (Some TestDoubles.testConfig) (Some TestDoubles.server)
              (Some TestDoubles.okSigner) TestDoubles.testAgent eq_refl
              ltac:(vm_compute; discriminate)
              "GET" "http://slave/t" None TestDoubles.world0
              ltac:(discriminate) ltac:(discriminate))
    as (claims & secret & Hs & _ & _ & Hv).
  exists claims, secret. split; [exact Hs|]. split.
  - apply Hv. vm_compute. reflexivity.
  - intros H. apply Hv in H. vm_compute in H. discriminate H.
Defined.

Lemma request_shape_errors_before_io_witness :
  NewRequest TestDoubles.testAgent "" "sdfasdfa" None TestDoubles.world0
  = (Err errMissingRequestMethod, TestDoubles.world0) /\
  NewRequest TestDoubles.testAgent "" "" None TestDoubles.world0
  = (Err errMissingRequestURL, TestDoubles.world0).
Proof.
  destruct (request_shape_errors_before_io (RT := TestDoubles.runtime)
              TestDoubles.testAgent "" "sdfasdfa" None TestDoubles.world0)
    as (_ & H2).
  destruct (request_shape_errors_before_io (RT := TestDoubles.runtime)
              TestDoubles.testAgent "" "" None TestDoubles.world0)
    as (H1 & _).
  split.
  - apply H2; [discriminate | reflexivity].
  - apply H1. reflexivity.
Defined.

(** ** Failures of the operations on tables *)

Section OperationFailures.

Context {RT : Runtime}.

Lemma failed_run (e : error) (w : World) (c : M (Result Response))
  (target : option Value) :
  c w = (Err e, w) ->
  (r <- c ;;
   match r with
   | Err e0 => ret (failed e0)
   | Ok response => ret (unmarshalResponse response target)
   end) w = (failed e, w).
Proof.
  intros H. unfold bind. now rewrite H.
Qed.

(** X9.  When buildURLStr fails for the base address of an operation, as it
    does for an empty table name or for a base address that does not parse,
    the operation returns that error, the JSON variants with status 0, and
    leaves the world as it was: the clock is not read, nothing is signed,
    nothing is sent. *)
Theorem url_errors_before_io :
  forall (agent : Agent) (table : string) (query : option Values)
         (body : option Reader) (target : option Value) (w : World) (e : error),
    let cfg := config agent in
    (buildURLStr (SlaveBaseURL cfg) table query = Err e ->
     Get agent table query w = (Err e, w) /\
     GetJSON agent table query target w = (failed e, w)) /\
    (buildURLStr (MasterBaseURL cfg) table None = Err e ->
     Post agent table body w = (Err e, w) /\
     PostAndReturn agent table body w = (Err e, w) /\
     (forall payload, snd (jsonEncode payload) = None ->
                      PostJSON agent table payload target w = (failed e, w))) /\
    (buildURLStr (MasterBaseURL cfg) table query = Err e ->
     Patch agent table query body w = (Err e, w) /\
     (forall payload, snd (jsonEncode payload) = None ->
                      PatchJSON agent table query payload w = (failed e, w)) /\
     Delete agent table query w = (Err e, w) /\
     DeleteJSON agent table query w = (failed e, w)).
Proof.
  intros agent table query body target w e cfg.
  split; [|split].
  - intros Hb.
    assert (HGet : Get agent table query w = (Err e, w))
      by (unfold Get; fold cfg; now rewrite Hb).
    split; [exact HGet|]. now apply failed_run.
  - intros Hb.
    assert (HPost : forall b, Post agent table b w = (Err e, w))
      by (intros b; unfold Post; fold cfg; now rewrite Hb).
    assert (HPostR : forall b, PostAndReturn agent table b w = (Err e, w))
      by (intros b; unfold PostAndReturn; fold cfg; now rewrite Hb).
    split; [apply HPost|]. split; [apply HPostR|].
    intros payload Henc. unfold PostJSON.
    destruct (jsonEncode payload) as [enc eerr]. simpl in Henc. subst eerr.
    destruct target; now apply failed_run.
  - intros Hb.
    assert (HPatch : forall b, Patch agent table query b w = (Err e, w))
      by (intros b; unfold Patch; fold cfg; now rewrite Hb).
    assert (HDelete : Delete agent table query w = (Err e, w))
      by (unfold Delete; fold cfg; now rewrite Hb).
    split; [apply HPatch|]. split; [|split; [exact HDelete|]].
    + intros payload Henc. unfold PatchJSON.
      destruct (jsonEncode payload) as [enc eerr]. simpl in Henc. subst eerr.
      now apply failed_run.
    + unfold DeleteJSON. now apply failed_run.
Qed.

(** X10.  PostJSON and PatchJSON encode the payload before anything else:
    when the encoder fails they return its error with status 0, whatever
    the table, query and target are, and leave the world as it was. *)
Theorem encode_failure_is_returned_first :
  forall (agent : Agent) (table : string) (query : option Values)
         (payload : Value) (target : option Value) (w : World) (e : error),
    snd (jsonEncode payload) = Some e ->
    PostJSON agent table payload target w = (failed e, w) /\
    PatchJSON agent table query payload w = (failed e, w).
Proof.
  intros agent table query payload target w e Henc.
  unfold PostJSON, PatchJSON.
  destruct (jsonEncode payload) as [enc eerr]. simpl in Henc. subst eerr.
  split; reflexivity.
Qed.

Lemma sendRequest_sent (agent : Agent) (method urlStr : string)
  (body : option Reader) (w : World) :
  (exists e, fst (sendRequest agent method urlStr body w) = Err e /\
             sent (snd (sendRequest agent method urlStr body w)) = sent w) \/
  (exists r, fst (NewRequest agent method urlStr body w) = Ok r /\
             fst (sendRequest agent method urlStr body w)
             = Do (httpClient agent) (snd (NewRequest agent method urlStr body w)) r /\
             sent (snd (sendRequest agent method urlStr body w))
             = (sent w ++ [r])%list).
Proof.
  assert (Hn : sent (snd (NewRequest agent method urlStr body w)) = sent w).
  { destruct (NewRequest_world agent method urlStr body w) as [H|H];
      now rewrite H. }
  destruct (sendRequest_cases agent method urlStr body w)
    as [(e & He & Hrun)|(r & Hr & Hrun)]; rewrite Hrun; simpl.
  - left. exists e. auto.
  - right. exists r. rewrite Hn. auto.
Qed.

Lemma sendRequest_failsAtTransport (agent : Agent) (e : error)
  (method urlStr : string) (body : option Reader) (w : World) :
  transportFailsWith agent e ->
  failsAtTransport (sendRequest agent method urlStr body) w e.
Proof.
  intros Hdown.
  destruct (sendRequest_sent agent method urlStr body w)
    as [(e' & He & Hs)|(r & _ & Hdo & Hs)].
  - left. eauto.
  - right. rewrite Hdo, Hdown. eauto.
Qed.

Lemma failsAtTransport_unsent {A : Type} (e e' : error) (w : World) :
  failsAtTransport (fun w0 => (@Err A e', w0)) w e.
Proof. left. exists e'. auto. Qed.

Lemma failsAtTransport_JSON (c : M (Result Response)) (target : option Value)
  (w : World) (e : error) :
  failsAtTransport c w e ->
  failsAtTransportJSON
    (r <- c ;;
     match r with
     | Err e0 => ret (failed e0)
     | Ok response => ret (unmarshalResponse response target)
     end) w e.
Proof.
  unfold failsAtTransport, failsAtTransportJSON, bind.
  destruct (c w) as [[response|e0] w1]; simpl.
  - intros [(e' & H & _)|(H & _)]; discriminate.
  - intros [(e' & H & Hs)|(H & Hs)].
    + split; [reflexivity|]. left. exists e0. auto.
    + injection H as ->. split; [reflexivity|]. right. auto.
Qed.

Ltac dead_via_sendRequest Hdown :=
  match goal with
  | |- failsAtTransport (match buildURLStr ?base ?table ?query with _ => _ end) _ _ =>
      destruct (buildURLStr base table query) as [urlStr|e0];
      [ now apply sendRequest_failsAtTransport
      | apply failsAtTransport_unsent ]
  end.

(** X11.  With a transport that fails with [e], every operation on a table
    fails, the JSON variants with status 0.  Either it failed before the
    transport was reached and nothing was sent, or the error is [e] itself
    and exactly one request was sent: the transport is not tried again. *)
Theorem dead_transport_fails_every_operation :
  forall (agent : Agent) (e : error),
    transportFailsWith agent e ->
    forall (table : string) (query : option Values) (body : option Reader)
           (payload : Value) (target : option Value) (w : World),
      failsAtTransport (Get agent table query) w e /\
      failsAtTransportJSON (GetJSON agent table query target) w e /\
      failsAtTransport (Post agent table body) w e /\
      failsAtTransport (PostAndReturn agent table body) w e /\
      failsAtTransportJSON (PostJSON agent table payload target) w e /\
      failsAtTransport (Patch agent table query body) w e /\
      failsAtTransportJSON (PatchJSON agent table query payload) w e /\
      failsAtTransport (Delete agent table query) w e /\
      failsAtTransportJSON (DeleteJSON agent table query) w e.
Proof.
  intros agent e Hdown table query body payload target w.
  assert (HGet : failsAtTransport (Get agent table query) w e)
    by (unfold Get; dead_via_sendRequest Hdown).
  assert (HPost : forall b, failsAtTransport (Post agent table b) w e)
    by (intros b; unfold Post; dead_via_sendRequest Hdown).
  assert (HPatch : forall b, failsAtTransport (Patch agent table query b) w e)
    by (intros b; unfold Patch; dead_via_sendRequest Hdown).
  assert (HDelete : failsAtTransport (Delete agent table query) w e)
    by (unfold Delete; dead_via_sendRequest Hdown).
  assert (HPostR : forall b, failsAtTransport (PostAndReturn agent table b) w e).
  { intros b. unfold PostAndReturn.
    destruct (buildURLStr (MasterBaseURL (config agent)) table None)
      as [urlStr|e0]; [|apply failsAtTransport_unsent].
    assert (Hn : sent (snd (NewRequest agent http_MethodPost urlStr b w)) = sent w).
    { destruct (NewRequest_world agent http_MethodPost urlStr b w) as [H|H];
        now rewrite H. }
    unfold failsAtTransport, bind.
    destruct (NewRequest agent http_MethodPost urlStr b w) as [[r|e1] w1];
      simpl in *.
    - right. rewrite Hdown, Hn. eauto.
    - left. eauto. }
  split; [exact HGet|].
  split; [now apply failsAtTransport_JSON|].
  split; [apply HPost|].
  split; [apply HPostR|].
  split.
  { unfold PostJSON. destruct (jsonEncode payload) as [enc [eerr|]].
    - split; [reflexivity|]. left. simpl. eauto.
    - destruct target; apply failsAtTransport_JSON; auto. }
  split; [apply HPatch|].
  split.
  { unfold PatchJSON. destruct (jsonEncode payload) as [enc [eerr|]].
    - split; [reflexivity|]. left. simpl. eauto.
    - apply failsAtTransport_JSON; auto. }
  split; [exact HDelete|].
  now apply failsAtTransport_JSON.
Qed.

End OperationFailures.

Lemma url_errors_before_io_witness :
  Get TestDoubles.testAgent "" (Some [("id", ["1"])]) TestDoubles.world0
  = (Err errMissingURLPath, TestDoubles.world0) /\
  DeleteJSON malformedAgent "test_table" None TestDoubles.world0
  = (failed (errors_New "parse ://xy/: missing protocol scheme"),
     TestDoubles.world0).
Proof.
  destruct (url_errors_before_io (RT := TestDoubles.runtime)
              TestDoubles.testAgent "" (Some [("id", ["1"])]) None None
              TestDoubles.world0 errMissingURLPath) as (H1 & _).
  destruct (url_errors_before_io (RT := TestDoubles.runtime)
              malformedAgent "test_table" None None None TestDoubles.world0
              (errors_New "parse ://xy/: missing protocol scheme"))
    as (_ & _ & H3).
  split.
  - apply H1. reflexivity.
  - apply H3. reflexivity.
Defined.

Lemma encode_failure_is_returned_first_witness :
  PostJSON (RT := pickyRuntime) TestDoubles.testAgent "" "" None
           TestDoubles.world0
  = (failed (errors_New "json: unsupported type"), TestDoubles.world0).
Proof.
  destruct (encode_failure_is_returned_first (RT := pickyRuntime)
              TestDoubles.testAgent "" None "" None TestDoubles.world0
              (errors_New "json: unsupported type") eq_refl) as (H & _).
  exact H.
Defined.

Lemma dead_transport_fails_every_operation_witness :
  transportFailsWith downAgent (errors_New "connection refused") /\
  fst (Get downAgent "test_table" None TestDoubles.world0)
  = Err (errors_New "connection refused") /\
  List.length (sent (snd (Get downAgent "test_table" None TestDoubles.world0)))
  = 1%nat.
Proof.
  assert (Hdown : transportFailsWith downAgent (errors_New "connection refused"))
    by (intros w r; reflexivity).
  split; [exact Hdown|].
  destruct (dead_transport_fails_every_operation (RT := TestDoubles.runtime)
              downAgent (errors_New "connection refused") Hdown
              "test_table" None None (jsonText "{}") None TestDoubles.world0)
    as ([(e' & _ & Hs)|(He & r & Hs)] & _).
  - vm_compute in Hs. discriminate Hs.
  - split; [exact He|]. rewrite Hs. reflexivity.
Defined.

(** ** What the operations call and send *)

Section Calls.

Context {RT : Runtime}.

Lemma callsOut_unchanged {A : Type} (c : M A) (w : World) (n : nat) :
  snd (c w) = w -> callsOut c w n.
Proof.
  intros H. exists [], []. rewrite H, !app_nil_r. simpl.
  repeat split; auto; lia.
Qed.

Lemma callsOut_same_world {A B : Type} (c : M A) (d : M B) (w : World) (n : nat) :
  snd (d w) = snd (c w) -> callsOut c w n -> callsOut d w n.
Proof.
  intros H (rs & cs & Hc). exists rs, cs. now rewrite H.
Qed.

Lemma NewRequest_callsOut (agent : Agent) (method urlStr : string)
  (body : option Reader) (w : World) :
  exists cs : list (Claims * string),
    sent (snd (NewRequest agent method urlStr body w)) = sent w /\
    signed (snd (NewRequest agent method urlStr body w)) = (signed w ++ cs)%list /\
    ticks (snd (NewRequest agent method urlStr body w))
    = (ticks w + List.length cs)%nat /\
    (List.length cs <= 1)%nat /\
    (forall r, fst (NewRequest agent method urlStr body w) = Ok r ->
               List.length cs = 1%nat).
Proof.
  destruct (NewRequest_world agent method urlStr body w) as [H|H].
  - exists []. rewrite H, app_nil_r. simpl. repeat split; auto; try lia.
    intros r Hr. apply NewRequest_ok in Hr. destruct Hr as (_ & _ & _ & Hw).
    rewrite H in Hw. apply (f_equal ticks) in Hw. simpl in Hw. lia.
  - eexists [_]. rewrite H. simpl. repeat split; auto; lia.
Qed.

Lemma sendRequest_callsOut (agent : Agent) (method urlStr : string)
  (body : option Reader) (w : World) :
  callsOut (sendRequest agent method urlStr body) w 1.
Proof.
  destruct (NewRequest_callsOut agent method urlStr body w)
    as (cs & Hs & Hc & Ht & Hlen & Hone).
  destruct (sendRequest_cases agent method urlStr body w)
    as [(e & He & Hrun)|(r & Hr & Hrun)].
  - exists [], cs. rewrite Hrun. simpl. rewrite app_nil_r.
    repeat split; auto; lia.
  - exists [r], cs. rewrite Hrun. simpl. rewrite Hs.
    specialize (Hone r Hr). repeat split; auto; lia.
Qed.

Lemma callsOut_bind {A B : Type} (c : M A) (k : A -> M B) (w : World) (n m : nat) :
  callsOut c w n ->
  (forall x, callsOut (k x) (snd (c w)) m) ->
  callsOut (bind c k) w (n + m).
Proof.
  intros (rs & cs & Hs & Hc & Ht & Hle & Hn) Hk.
  unfold callsOut, bind. destruct (c w) as [x w1]. simpl in *.
  destruct (Hk x) as (rs' & cs' & Hs' & Hc' & Ht' & Hle' & Hm).
  exists (rs ++ rs')%list, (cs ++ cs')%list.
  rewrite Hs', Hc', Ht', Hs, Hc, Ht, !app_assoc, !length_app.
  repeat split; lia.
Qed.

Ltac calls_via_sendRequest :=
  match goal with
  | |- callsOut (match buildURLStr ?base ?table ?query with _ => _ end) _ _ =>
      destruct (buildURLStr base table query) as [urlStr|e0];
      [ apply sendRequest_callsOut | now apply callsOut_unchanged ]
  end.

Lemma PostAndReturn_callsOut (agent : Agent) (table : string)
  (body : option Reader) (w : World) :
  callsOut (PostAndReturn agent table body) w 1.
Proof.
  unfold PostAndReturn.
  destruct (buildURLStr (MasterBaseURL (config agent)) table None)
    as [urlStr|e0]; [|now apply callsOut_unchanged].
  destruct (NewRequest_callsOut agent http_MethodPost urlStr body w)
    as (cs & Hs & Hc & Ht & Hlen & Hone).
  unfold callsOut, bind.
  destruct (NewRequest agent http_MethodPost urlStr body w) as [[r|e1] w1];
    simpl in *.
  - eexists [_], cs. rewrite Hs. specialize (Hone r eq_refl).
    repeat split; auto; simpl; lia.
  - exists [], cs. rewrite app_nil_r. repeat split; auto; simpl; lia.
Qed.

(** X12.  Every operation on a table calls the signer at most once, reads
    the clock once per signing, and hands the transport at most one
    request, never more requests than tokens signed; Ping does so at most
    twice.  Nothing is retried and nothing is sent unsigned. *)
Theorem operations_call_out_at_most_once :
  forall (agent : Agent) (table : string) (query : option Values)
         (body : option Reader) (payload : Value) (target : option Value)
         (w : World),
    callsOut (Get agent table query) w 1 /\
    callsOut (GetJSON agent table query target) w 1 /\
    callsOut (Post agent table body) w 1 /\
    callsOut (PostAndReturn agent table body) w 1 /\
    callsOut (PostJSON agent table payload target) w 1 /\
    callsOut (Patch agent table query body) w 1 /\
    callsOut (PatchJSON agent table query payload) w 1 /\
    callsOut (Delete agent table query) w 1 /\
    callsOut (DeleteJSON agent table query) w 1 /\
    callsOut (Ping agent) w 2.
Proof.
  intros agent table query body payload target w.
  assert (HGet : callsOut (Get agent table query) w 1)
    by (unfold Get; calls_via_sendRequest).
  assert (HPost : forall b, callsOut (Post agent table b) w 1)
    by (intros b; unfold Post; calls_via_sendRequest).
  assert (HPatch : forall b, callsOut (Patch agent table query b) w 1)
    by (intros b; unfold Patch; calls_via_sendRequest).
  assert (HDelete : callsOut (Delete agent table query) w 1)
    by (unfold Delete; calls_via_sendRequest).
  split; [exact HGet|].
  split; [eapply callsOut_same_world; [apply GetJSON_world | exact HGet]|].
  split; [apply HPost|].
  split; [apply PostAndReturn_callsOut|].
  split.
  { destruct (PostJSON_world agent table payload target w) as [H|[H|H]].
    - now apply callsOut_unchanged.
    - eapply callsOut_same_world; [exact H | apply HPost].
    - eapply callsOut_same_world; [exact H | apply PostAndReturn_callsOut]. }
  split; [apply HPatch|].
  split.
  { destruct (PatchJSON_world agent table query payload w) as [H|H].
    - now apply callsOut_unchanged.
    - eapply callsOut_same_world; [exact H | apply HPatch]. }
  split; [exact HDelete|].
  split; [eapply callsOut_same_world; [apply DeleteJSON_world | exact HDelete]|].
  unfold Ping, pingAll.
  apply (callsOut_bind _ _ w 1 1); [apply sendRequest_callsOut|].
  intros [response1|e1]; [|now apply callsOut_unchanged].
  destruct (isSuccess (StatusCode response1)); simpl;
    [|now apply callsOut_unchanged].
  replace 1%nat with (1 + 0)%nat by reflexivity.
  apply callsOut_bind; [apply sendRequest_callsOut|].
  intros [response2|e2]; [|now apply callsOut_unchanged].
  destruct (isSuccess (StatusCode response2)); simpl;
    now apply callsOut_unchanged.
Qed.

Lemma sendRequest_headers (agent : Agent) (method urlStr : string)
  (body : option Reader) (w : World) :
  traceOf (sendRequest agent method urlStr body) w plainHeader (fun _ => True).
Proof.
  destruct (sendRequest_sent agent method urlStr body w)
    as [(e & _ & Hs)|(r & Hr & _ & Hs)].
  - destruct (sendRequest_callsOut agent method urlStr body w)
      as (rs & cs & _ & Hc & _).
    exists [], cs. rewrite app_nil_r. repeat split; auto.
    apply Forall_forall. auto.
  - destruct (sendRequest_callsOut agent method urlStr body w)
      as (rs & cs & _ & Hc & _).
    exists [r], cs. repeat split; auto.
    + constructor; [|constructor]. apply NewRequest_ok in Hr.
      destruct Hr as (_ & _ & Hh & _). eexists. exact Hh.
    + apply Forall_forall. auto.
Qed.

Ltac headers_via_sendRequest :=
  match goal with
  | |- traceOf (match buildURLStr ?base ?table ?query with _ => _ end) _ _ _ =>
      destruct (buildURLStr base table query) as [urlStr|e0];
      [ apply sendRequest_headers | now apply traceOf_unchanged ]
  end.

Lemma PostAndReturn_headers (agent : Agent) (table : string)
  (body : option Reader) (w : World) :
  traceOf (PostAndReturn agent table body) w preferHeader (fun _ => True).
Proof.
  unfold PostAndReturn.
  destruct (buildURLStr (MasterBaseURL (config agent)) table None)
    as [urlStr|e0]; [|now apply traceOf_unchanged].
  destruct (NewRequest_callsOut agent http_MethodPost urlStr body w)
    as (cs & Hs & Hc & _).
  unfold traceOf, bind.
  destruct (NewRequest agent http_MethodPost urlStr body w) as [[r|e1] w1] eqn:Hn;
    simpl in *.
  - eexists [_], cs. rewrite Hs. repeat split; auto.
    + constructor; [|constructor].
      assert (Hr : fst (NewRequest agent http_MethodPost urlStr body w) = Ok r)
        by now rewrite Hn.
      apply NewRequest_ok in Hr. destruct Hr as (_ & _ & Hh & _).
      eexists. simpl. unfold Header_Add. rewrite Hh. reflexivity.
    + apply Forall_forall. auto.
  - exists [], cs. rewrite app_nil_r. repeat split; auto.
    apply Forall_forall. auto.
Qed.

(** X13.  The requests of Get, Post, Patch, Delete, their JSON variants
    without target and Ping carry one header and no other, the bearer
    token.  The requests of PostAndReturn, and of PostJSON when it is given
    a target, carry two, the bearer token followed by
    "Prefer: return=representation". *)
Theorem prefer_header_only_on_create_and_return :
  forall (agent : Agent) (table : string) (query : option Values)
         (body : option Reader) (payload : Value) (w : World),
    let anySigning := fun _ : Claims * string => True in
    traceOf (Get agent table query) w plainHeader anySigning /\
    (forall target,
        traceOf (GetJSON agent table query target) w plainHeader anySigning) /\
    traceOf (Post agent table body) w plainHeader anySigning /\
    traceOf (PostJSON agent table payload None) w plainHeader anySigning /\
    traceOf (Patch agent table query body) w plainHeader anySigning /\
    traceOf (PatchJSON agent table query payload) w plainHeader anySigning /\
    traceOf (Delete agent table query) w plainHeader anySigning /\
    traceOf (DeleteJSON agent table query) w plainHeader anySigning /\
    traceOf (Ping agent) w plainHeader anySigning /\
    traceOf (PostAndReturn agent table body) w preferHeader anySigning /\
    (forall t,
        traceOf (PostJSON agent table payload (Some t)) w preferHeader anySigning).
Proof.
  intros agent table query body payload w anySigning. subst anySigning.
  assert (HGet : traceOf (Get agent table query) w plainHeader (fun _ => True))
    by (unfold Get; headers_via_sendRequest).
  assert (HPost : forall b,
             traceOf (Post agent table b) w plainHeader (fun _ => True))
    by (intros b; unfold Post; headers_via_sendRequest).
  assert (HPatch : forall b,
             traceOf (Patch agent table query b) w plainHeader (fun _ => True))
    by (intros b; unfold Patch; headers_via_sendRequest).
  assert (HDelete : traceOf (Delete agent table query) w plainHeader
                            (fun _ => True))
    by (unfold Delete; headers_via_sendRequest).
  split; [exact HGet|].
  split; [intros target; eapply traceOf_same_world;
          [apply GetJSON_world | exact HGet]|].
  split; [apply HPost|].
  split.
  { unfold PostJSON. destruct (jsonEncode payload) as [enc [eerr|]].
    - now apply traceOf_unchanged.
    - eapply traceOf_same_world; [|apply (HPost (Some enc))].
      unfold bind. now destruct (Post agent table (Some enc) w) as [[r|e] w1]. }
  split; [apply HPatch|].
  split.
  { destruct (PatchJSON_world agent table query payload w) as [H|H].
    - now apply traceOf_unchanged.
    - eapply traceOf_same_world; [exact H | apply HPatch]. }
  split; [exact HDelete|].
  split; [eapply traceOf_same_world; [apply DeleteJSON_world | exact HDelete]|].
  split.
  { unfold Ping, pingAll.
    apply traceOf_bind; [apply sendRequest_headers|].
    intros [response1|e1]; [|now apply traceOf_unchanged].
    destruct (isSuccess (StatusCode response1)); simpl;
      [|now apply traceOf_unchanged].
    apply traceOf_bind; [apply sendRequest_headers|].
    intros [response2|e2]; [|now apply traceOf_unchanged].
    destruct (isSuccess (StatusCode response2)); simpl;
      now apply traceOf_unchanged. }
  split; [apply PostAndReturn_headers|].
  intros t. unfold PostJSON. destruct (jsonEncode payload) as [enc [eerr|]].
  - now apply traceOf_unchanged.
  - eapply traceOf_same_world; [|apply (PostAndReturn_headers agent table (Some enc))].
    unfold bind.
    now destruct (PostAndReturn agent table (Some enc) w) as [[r|e] w1].
Qed.

End Calls.

(** A create-and-return on the test server: the two headers, in order. *)
Example postAndReturn_run :
  map ReqHeader
      (sent (snd (PostJSON TestDoubles.testAgent "test_table" (jsonText "{}")
                           (Some (jsonText "")) TestDoubles.world0)))
  = [[("Authorization", "Bearer secret"); ("Prefer", "return=representation")]].
Proof. reflexivity. Qed.

(** ** Outcomes of the JSON variants *)

Section Outcomes.

Context {RT : Runtime}.

(** X14.  unmarshalResponse returns no error exactly when the status is in
    [200,300) and either there is no target or the decoder accepts the body.
    The status it returns is the response's own or 500, and it is the
    response's own whenever there is no error.  The target is left as it was
    when the status is no success, and is what the decoder made of it
    otherwise. *)
Theorem unmarshalResponse_succeeds_iff :
  forall (response : Response) (target : option Value),
    let o := unmarshalResponse response target in
    (err o = None <->
     isSuccess (StatusCode response) = true /\
     (target = None \/
      exists t, target = Some t /\
                snd (json_Decode (Body_unread (RespBody response)) t) = None)) /\
    (err o = None -> status o = StatusCode response) /\
    (status o = StatusCode response \/ status o = 500) /\
    (isSuccess (StatusCode response) = false -> target_after o = target) /\
    (forall t, isSuccess (StatusCode response) = true -> target = Some t ->
               target_after o
               = Some (snd (fst (json_Decode (Body_unread (RespBody response)) t)))).
Proof.
  intros response target o. subst o. unfold unmarshalResponse.
  destruct (isSuccess (StatusCode response)) eqn:Hs; simpl.
  - destruct target as [t|].
    + destruct (json_Decode (Body_unread (RespBody response)) t)
        as [[n t'] [e|]] eqn:Hd; simpl.
      * split; [split; [discriminate|]|].
        { intros (_ & [H|(t0 & Ht & H)]); [discriminate|].
          injection Ht as <-. rewrite Hd in H. discriminate H. }
        split; [discriminate|]. split; [now right|].
        split; [discriminate|].
        intros t0 _ Ht. injection Ht as <-. now rewrite Hd.
      * split; [split; [|reflexivity]|].
        { intros _. split; [reflexivity|]. right. exists t. now rewrite Hd. }
        split; [reflexivity|]. split; [now left|].
        split; [discriminate|].
        intros t0 _ Ht. injection Ht as <-. now rewrite Hd.
    + split; [split; [|reflexivity]|].
      { intros _. split; [reflexivity|]. now left. }
      split; [reflexivity|]. split; [now left|].
      split; [discriminate|]. intros t0 _ Ht. discriminate Ht.
  - split; [split; [discriminate|]|].
    { intros [H _]. discriminate H. }
    split; [discriminate|]. split; [now left|].
    split; [reflexivity|]. intros t0 H. discriminate H.
Qed.

Lemma unmarshalResponse_untargeted (response : Response) :
  reportsStatus (unmarshalResponse response None) response.
Proof.
  unfold reportsStatus, unmarshalResponse.
  destruct (isSuccess (StatusCode response)); simpl;
    repeat split; try discriminate; auto.
Qed.

(** X15.  DeleteJSON, PatchJSON and PostJSON without target hand their
    response to unmarshalResponse without target: they return the status of
    the response, whatever it is, with an error exactly when it is outside
    [200,300), close the body once and read none of it. *)
Theorem untargeted_variants_report_status :
  forall (agent : Agent) (table : string) (query : option Values)
         (payload : Value) (w : World) (response : Response),
    (fst (Delete agent table query w) = Ok response ->
     reportsStatus (fst (DeleteJSON agent table query w)) response) /\
    (snd (jsonEncode payload) = None ->
     fst (Patch agent table query (Some (fst (jsonEncode payload))) w)
     = Ok response ->
     reportsStatus (fst (PatchJSON agent table query payload w)) response) /\
    (snd (jsonEncode payload) = None ->
     fst (Post agent table (Some (fst (jsonEncode payload))) w) = Ok response ->
     reportsStatus (fst (PostJSON agent table payload None w)) response).
Proof.
  intros agent table query payload w response.
  split; [|split].
  - intros H. unfold DeleteJSON, bind.
    destruct (Delete agent table query w) as [r w1]. simpl in H. subst r.
    apply unmarshalResponse_untargeted.
  - intros Henc H. unfold PatchJSON, bind.
    destruct (jsonEncode payload) as [enc eerr]. simpl in *. subst eerr.
    destruct (Patch agent table query (Some enc) w) as [r w1].
    simpl in H. subst r. apply unmarshalResponse_untargeted.
  - intros Henc H. unfold PostJSON, bind.
    destruct (jsonEncode payload) as [enc eerr]. simpl in *. subst eerr.
    destruct (Post agent table (Some enc) w) as [r w1].
    simpl in H. subst r. apply unmarshalResponse_untargeted.
Qed.

Lemma unmarshalResponse_decoded (response : Response) (t t' : Value) (n : nat) :
  isSuccess (StatusCode response) = true ->
  json_Decode (Body_unread (RespBody response)) t = (n, t', None) ->
  unmarshalResponse response (Some t) = decoded response n t'.
Proof.
  intros Hs Hd. unfold unmarshalResponse. now rewrite Hs, Hd.
Qed.

(** X16.  GetJSON with a target, and PostJSON with a target through the
    create-and-return path, give the caller what the decoder made of the
    body of a success response: the status of the response, no error, the
    decoded target, and the body read as far as the decoder read and closed
    once. *)
Theorem targeted_variants_decode_the_answer :
  forall (agent : Agent) (table : string) (query : option Values)
         (payload t t' : Value) (n : nat) (w : World) (response : Response),
    isSuccess (StatusCode response) = true ->
    json_Decode (Body_unread (RespBody response)) t = (n, t', None) ->
    (fst (Get agent table query w) = Ok response ->
     fst (GetJSON agent table query (Some t) w) = decoded response n t') /\
    (snd (jsonEncode payload) = None ->
     fst (PostAndReturn agent table (Some (fst (jsonEncode payload))) w)
     = Ok response ->
     fst (PostJSON agent table payload (Some t) w) = decoded response n t').
Proof.
  intros agent table query payload t t' n w response Hs Hd. split.
  - intros H. unfold GetJSON, bind.
    destruct (Get agent table query w) as [r w1]. simpl in H. subst r.
    simpl. now apply unmarshalResponse_decoded.
  - intros Henc H. unfold PostJSON, bind.
    destruct (jsonEncode payload) as [enc eerr]. simpl in *. subst eerr.
    destruct (PostAndReturn agent table (Some enc) w) as [r w1].
    simpl in H. subst r. simpl. now apply unmarshalResponse_decoded.
Qed.

Lemma probe_ok (agent : Agent) (url : string) (w : World) (response : Response)
  (w1 : World) :
  sendRequest agent http_MethodGet url None w = (Ok response, w1) ->
  exists (r : Request) (claims : Claims) (secret : string),
    requestFor http_MethodGet url r /\
    w1 = afterSending (afterSigning w claims secret) r.
Proof.
  intros H.
  destruct (sendRequest_cases agent http_MethodGet url None w)
    as [(e & _ & Hrun)|(r & Hr & Hrun)]; rewrite H in Hrun.
  - discriminate Hrun.
  - apply NewRequest_ok in Hr. destruct Hr as (Hreq & _ & _ & Hw).
    rewrite Hw in Hrun. injection Hrun as _ ->. eauto.
Qed.

(** X17.  When Ping returns no error it has handed the transport exactly
    two requests, a GET of the primary base address and then a GET of the
    replica base address, and has read the clock and called the signer
    once for each. *)
Theorem ping_success_sends_two_probes :
  forall (agent : Agent) (w : World),
    fst (Ping agent w) = None ->
    exists r1 r2 : Request,
      sent (snd (Ping agent w)) = (sent w ++ [r1; r2])%list /\
      requestFor http_MethodGet (MasterBaseURL (config agent)) r1 /\
      requestFor http_MethodGet (SlaveBaseURL (config agent)) r2 /\
      List.length (signed (snd (Ping agent w)))
      = (List.length (signed w) + 2)%nat /\
      ticks (snd (Ping agent w)) = (ticks w + 2)%nat.
Proof.
  intros agent w. rewrite Ping_unfold.
  destruct (sendRequest agent http_MethodGet (MasterBaseURL (config agent)) None w)
    as [[response1|e1] w1] eqn:H1; [|discriminate].
  destruct (isSuccess (StatusCode response1)); [|discriminate].
  destruct (sendRequest agent http_MethodGet (SlaveBaseURL (config agent)) None w1)
    as [[response2|e2] w2] eqn:H2; [|discriminate].
  destruct (isSuccess (StatusCode response2)); [|discriminate].
  intros _. simpl.
  apply probe_ok in H1. destruct H1 as (r1 & c1 & s1 & Hr1 & ->).
  apply probe_ok in H2. destruct H2 as (r2 & c2 & s2 & Hr2 & ->).
  exists r1, r2. simpl. rewrite <- app_assoc, !length_app. simpl.
  repeat split; try apply Hr1; try apply Hr2; lia.
Qed.

End Outcomes.

Lemma untargeted_variants_report_status_witness :
  status (fst (DeleteJSON TestDoubles.testAgent "test_table"
                          (Some [("error", ["404"])]) TestDoubles.world0)) = 404 /\
  body_after (fst (DeleteJSON TestDoubles.testAgent "test_table"
                              (Some [("error", ["404"])]) TestDoubles.world0))
  = Some (mkBody "Not Found" 0 1).
Proof.
  destruct (untargeted_variants_report_status (RT := TestDoubles.runtime)
              TestDoubles.testAgent "test_table" (Some [("error", ["404"])])
              (jsonText "{}") TestDoubles.world0
              (mkResponse "404 Not Found" 404
                 (mkRequest "DELETE"
                    (mkURL "http" "" "" "master" "/test_table" "" false
                           "error=404" "")
                    [("Authorization", "Bearer secret")] None)
                 (mkBody "Not Found" 0 0))) as (H & _).
  destruct (H eq_refl) as (Hst & _ & Hbody & _).
  split; [exact Hst | exact Hbody].
Defined.

Lemma targeted_variants_decode_the_answer_witness :
  fst (GetJSON TestDoubles.testAgent "test_table" None (Some (jsonText ""))
               TestDoubles.world0)
  = {| status := 200; err := None;
       body_after := Some (mkBody "{}" 2 1);
       target_after := Some (jsonText "{}") |}.
Proof.
  destruct (targeted_variants_decode_the_answer (RT := TestDoubles.runtime)
              TestDoubles.testAgent "test_table" None (jsonText "{}")
              (jsonText "") (jsonText "{}") 2%nat TestDoubles.world0
              (mkResponse "200 OK" 200
                 (mkRequest "GET"
                    (mkURL "http" "" "" "slave" "/test_table" "" false "" "")
                    [("Authorization", "Bearer secret")] None)
                 (mkBody "{}" 0 0)) eq_refl eq_refl) as (H & _).
  rewrite (H eq_refl). reflexivity.
Defined.

Lemma unmarshalResponse_succeeds_iff_witness :
  err (unmarshalResponse (okResponse "{}") (Some (jsonText ""))) = None /\
  target_after (unmarshalResponse notFoundResponse (Some (jsonText "kept")))
  = Some (jsonText "kept").
Proof.
  destruct (unmarshalResponse_succeeds_iff (okResponse "{}") (Some (jsonText "")))
    as (H1 & _).
  destruct (unmarshalResponse_succeeds_iff notFoundResponse
              (Some (jsonText "kept"))) as (_ & _ & _ & H4 & _).
  split.
  - apply H1. split; [reflexivity|]. right. exists (jsonText ""). auto.
  - apply H4. reflexivity.
Defined.

Lemma ping_success_sends_two_probes_witness :
  fst (Ping TestDoubles.testAgent TestDoubles.world0) = None /\
  exists r1 r2 : Request,
    sent (snd (Ping TestDoubles.testAgent TestDoubles.world0)) = [r1; r2] /\
    Host (ReqURL r1) = "master" /\ Host (ReqURL r2) = "slave".
Proof.
  assert (Hok : fst (Ping TestDoubles.testAgent TestDoubles.world0) = None)
    by reflexivity.
  split; [exact Hok|].
  destruct (ping_success_sends_two_probes (RT := TestDoubles.runtime)
              TestDoubles.testAgent TestDoubles.world0 Hok)
    as (r1 & r2 & Hs & (_ & H1) & (_ & H2) & _).
  exists r1, r2. split; [exact Hs|].
  change (Ok (mkURL "http" "" "" "master" "" "" false "" "") = Ok (ReqURL r1))
    in H1.
  change (Ok (mkURL "http" "" "" "slave" "" "" false "" "") = Ok (ReqURL r2))
    in H2.
  injection H1 as H1. injection H2 as H2.
  rewrite <- H1, <- H2. split; reflexivity.
Defined.

(** ** Answers and early failures *)

Section Answers.

Context {RT : Runtime}.

Lemma sendRequest_answeredBy (agent : Agent) (method urlStr : string)
  (body : option Reader) (w : World) (response : Response) :
  fst (sendRequest agent method urlStr body w) = Ok response ->
  answeredBy agent (sendRequest agent method urlStr body) w response.
Proof.
  intros H.
  assert (Hn : sent (snd (NewRequest agent method urlStr body w)) = sent w).
  { destruct (NewRequest_world agent method urlStr body w) as [Hw|Hw];
      now rewrite Hw. }
  destruct (sendRequest_sent agent method urlStr body w)
    as [(e & He & _)|(r & _ & Hdo & Hs)]; [congruence|].
  exists r, (snd (NewRequest agent method urlStr body w)).
  repeat split; [exact Hs | exact Hn | congruence].
Qed.

Ltac answer_via_sendRequest :=
  match goal with
  | |- fst ((match buildURLStr ?base ?table ?query with _ => _ end) _) = _ -> _ =>
      destruct (buildURLStr base table query) as [urlStr|e0];
      [ apply sendRequest_answeredBy | discriminate ]
  end.

(** X18.  A response returned by Get, Post, PostAndReturn, Patch or Delete
    is the transport's own answer, handed back as it is, to the one request
    the operation sent: the raw operations neither read nor close the body
    and send nothing else. *)
Theorem raw_operations_return_the_transport_answer :
  forall (agent : Agent) (table : string) (query : option Values)
         (body : option Reader) (w : World) (response : Response),
    (fst (Get agent table query w) = Ok response ->
     answeredBy agent (Get agent table query) w response) /\
    (fst (Post agent table body w) = Ok response ->
     answeredBy agent (Post agent table body) w response) /\
    (fst (PostAndReturn agent table body w) = Ok response ->
     answeredBy agent (PostAndReturn agent table body) w response) /\
    (fst (Patch agent table query body w) = Ok response ->
     answeredBy agent (Patch agent table query body) w response) /\
    (fst (Delete agent table query w) = Ok response ->
     answeredBy agent (Delete agent table query) w response).
Proof.
  intros agent table query body w response.
  split; [unfold Get; answer_via_sendRequest|].
  split; [unfold Post; answer_via_sendRequest|].
  split; [|split; [unfold Patch; answer_via_sendRequest
                  |unfold Delete; answer_via_sendRequest]].
  unfold PostAndReturn.
  destruct (buildURLStr (MasterBaseURL (config agent)) table None)
    as [urlStr|e0]; [|discriminate].
  assert (Hn : sent (snd (NewRequest agent http_MethodPost urlStr body w)) = sent w).
  { destruct (NewRequest_world agent http_MethodPost urlStr body w) as [Hw|Hw];
      now rewrite Hw. }
  unfold answeredBy, bind.
  destruct (NewRequest agent http_MethodPost urlStr body w) as [[r|e1] w1];
    simpl in *; [|discriminate].
  intros H. eexists _, w1. repeat split; [now rewrite Hn | exact Hn | exact H].
Qed.

(** X19.  When the request of the primary probe cannot be built, because
    the primary base address is empty, the signer fails or the HTTP library
    refuses the address, Ping returns that error behind
    "master service error: ", sends nothing and does not probe the replica:
    the world is the one NewRequest left. *)
Theorem ping_reports_unbuilt_primary_probe :
  forall (agent : Agent) (w : World) (e : error),
    let built := NewRequest agent http_MethodGet (MasterBaseURL (config agent))
                            None w in
    fst built = Err e ->
    Ping agent w
    = (Some (fmt_Errorf ("master service error: " ++ Error e)), snd built) /\
    sent (snd (Ping agent w)) = sent w /\
    (List.length (signed (snd (Ping agent w))) <= List.length (signed w) + 1)%nat.
Proof.
  intros agent w e built Hb. subst built.
  assert (Hp : Ping agent w
               = (Some (fmt_Errorf ("master service error: " ++ Error e)),
                  snd (NewRequest agent http_MethodGet
                                  (MasterBaseURL (config agent)) None w))).
  { rewrite Ping_unfold.
    destruct (sendRequest_cases agent http_MethodGet
                (MasterBaseURL (config agent)) None w)
      as [(e' & He & Hrun)|(r & Hr & _)]; [|congruence].
    rewrite Hrun. congruence. }
  split; [exact Hp|]. rewrite Hp. simpl.
  destruct (NewRequest_world agent http_MethodGet (MasterBaseURL (config agent))
                             None w) as [Hw|Hw]; rewrite Hw; simpl.
  - split; [reflexivity | lia].
  - split; [reflexivity|]. rewrite length_app. simpl. lia.
Qed.

End Answers.

Lemma raw_operations_return_the_transport_answer_witness :
  exists response : Response,
    fst (Get TestDoubles.testAgent "test_table" None TestDoubles.world0)
    = Ok response /\
    RespBody response = mkBody "{}" 0 0 /\
    answeredBy TestDoubles.testAgent
      (Get TestDoubles.testAgent "test_table" None) TestDoubles.world0 response.
Proof.
  eexists. split; [reflexivity|]. split; [reflexivity|].
  destruct (raw_operations_return_the_transport_answer
              (RT := TestDoubles.runtime) TestDoubles.testAgent "test_table"
              None None TestDoubles.world0
              (mkResponse "200 OK" 200
                 (mkRequest "GET"
                    (mkURL "http" "" "" "slave" "/test_table" "" false "" "")
                    [("Authorization", "Bearer secret")] None)
                 (mkBody "{}" 0 0))) as (H & _).
  apply H. reflexivity.
Defined.

Lemma ping_reports_unbuilt_primary_probe_witness :
  fst (Ping malformedAgent TestDoubles.world0)
  = Some (errors_New "master service error: parse ://xy/: missing protocol scheme")
  /\
  fst (Ping TestDoubles.failingAgent TestDoubles.world0)
  = Some (errors_New "master service error: mock error").
Proof.
  destruct (ping_reports_unbuilt_primary_probe (RT := TestDoubles.runtime)
              malformedAgent TestDoubles.world0
              (errors_New "parse ://xy/: missing protocol scheme") eq_refl)
    as (H1 & _).
  destruct (ping_reports_unbuilt_primary_probe (RT := TestDoubles.runtime)
              TestDoubles.failingAgent TestDoubles.world0
              TestDoubles.mockError eq_refl) as (H2 & _).
  rewrite H1, H2. split; reflexivity.
Defined.
